(** * Handshake initiation of device/noise-protocol.go, embedded in Rocq

    The Go file is embedded shallowly.  Fixed-size byte arrays ([N]byte)
    are vectors of bytes whose length is part of the type, slices are
    lists of bytes, structs are records, the state enum is an inductive
    type.  The two exported functions mutate the device and the peer
    through pointers and leave by early returns, so they are written in a
    small state monad with an early-return outcome; every mutation made
    before an early return stays in the final store, as in Go.

    The mutexes of the source are not represented: one call runs at a
    time.  Pointers to peers are references into a store and are never
    nil. *)

From Stdlib Require Import ZArith QArith Lia Strings.Byte Strings.String.
From stdpp Require Import base option list vector gmap.

Local Open Scope Z_scope.

(** ** Bytes, arrays and slices *)

Definition bytes := list byte.

(** [N]byte *)
Abbreviation array n := (vec byte n).

(** The zero value of [N]byte. *)
Definition zeroArray (n : nat) : array n := vreplicate n x00.

(** arr[:] *)
Definition slice {n} (a : array n) : bytes := vec_to_list a.

(** Modelled from the spec: setZero is not among the source files; it
    overwrites every byte of the slice with zero (the scoped secret
    zeroing of the design notes). *)
Definition setZero {n} (arr : array n) : array n := vmap (fun _ => x00) arr.

(** Modelled from the spec: isZero is not among the source files; it
    tells whether the value is all-zero. *)
Definition isZero (val : bytes) : bool := forallb (Byte.eqb x00) val.

(** Writing [out], the result of appending to the empty prefix arr[:0],
    back into the array that backs it: Go's append reuses the backing
    array when the capacity suffices and allocates a new one otherwise,
    in which case the array keeps its content. *)
Fixpoint overwrite {n} (arr : array n) (out : bytes) : array n :=
  match arr in Vector.t _ n return array n with
  | vnil => vnil
  | vcons x arr' =>
      match out with
      | [] => vcons x arr'
      | y :: out' => vcons y (overwrite arr' out')
      end
  end.

Definition appendInto {n} (arr : array n) (out : bytes) : array n :=
  if (length out <=? n)%nat then overwrite arr out else arr.

(** ** Sizes (blake2s, chacha20poly1305, poly1305, tai64n, noise-types) *)

Definition blake2s_Size : nat := 32.
Definition blake2s_Size128 : nat := 16.
Definition chacha20poly1305_KeySize : nat := 32.
Definition chacha20poly1305_NonceSize : nat := 12.
Definition chacha20poly1305_NonceSizeX : nat := 24.
Definition poly1305_TagSize : nat := 16.
Definition tai64n_TimestampSize : nat := 12.
Definition NoisePublicKeySize : nat := 32.
Definition NoisePrivateKeySize : nat := 32.
Definition NoisePresharedKeySize : nat := 32.

Abbreviation NoisePublicKey := (array NoisePublicKeySize).
Abbreviation NoisePrivateKey := (array NoisePrivateKeySize).
Abbreviation NoisePresharedKey := (array NoisePresharedKeySize).
Abbreviation tai64n_Timestamp := (array tai64n_TimestampSize).

(** uint32 values are integers reduced modulo 2^32. *)
Definition uint32 (z : Z) : Z := z mod 2 ^ 32.

(** ** The handshake state *)

Inductive handshakeState :=
| handshakeZeroed
| handshakeInitiationCreated
| handshakeInitiationConsumed
| handshakeResponseCreated
| handshakeResponseConsumed.

Definition handshakeState_String (hs : handshakeState) : string :=
  match hs with
  | handshakeZeroed => "handshakeZeroed"
  | handshakeInitiationCreated => "handshakeInitiationCreated"
  | handshakeInitiationConsumed => "handshakeInitiationConsumed"
  | handshakeResponseCreated => "handshakeResponseCreated"
  | handshakeResponseConsumed => "handshakeResponseConsumed"
  end.

Definition NoiseConstruction : string := "Noise_IKpsk2_25519_ChaChaPoly_BLAKE2s".
Definition WGIdentifier : string := "WireGuard v1 zx2c4 Jason@zx2c4.com".
Definition WGLabelMAC1 : string := "mac1----".
Definition WGLabelCookie : string := "cookie--".

Definition MessageInitiationSize : nat := 148.
Definition MessageResponseSize : nat := 92.
Definition MessageCookieReplySize : nat := 64.
Definition MessageTransportHeaderSize : nat := 16.
Definition MessageTransportSize : nat := MessageTransportHeaderSize + poly1305_TagSize.
Definition MessageKeepaliveSize : nat := MessageTransportSize.
Definition MessageHandshakeSize : nat := MessageInitiationSize.

Record MessageInitiation := {
  Type_ : Z;
  Sender : Z;
  Ephemeral : NoisePublicKey;
  Static : array (NoisePublicKeySize + poly1305_TagSize);
  Timestamp : array (tai64n_TimestampSize + poly1305_TagSize);
  MAC1 : array blake2s_Size128;
  MAC2 : array blake2s_Size128
}.

(** time.Time, kept as an instant in nanoseconds. *)
Definition time_Time := Z.

Record Handshake := {
  state : handshakeState;
  hash : array blake2s_Size;
  chainKey : array blake2s_Size;
  presharedKey : NoisePresharedKey;
  localEphemeral : NoisePrivateKey;
  localIndex : Z;
  remoteIndex : Z;
  remoteStatic : NoisePublicKey;
  remoteEphemeral : NoisePublicKey;
  precomputedStaticStatic : array NoisePublicKeySize;
  lastTimestamp : tai64n_Timestamp;
  lastInitiationConsumption : time_Time;
  lastSentHandshake : time_Time
}.

(** Assignments to single fields of a handshake. *)
Definition set_state (v : handshakeState) (h : Handshake) : Handshake :=
  {| state := v; hash := hash h; chainKey := chainKey h;
     presharedKey := presharedKey h; localEphemeral := localEphemeral h;
     localIndex := localIndex h; remoteIndex := remoteIndex h;
     remoteStatic := remoteStatic h; remoteEphemeral := remoteEphemeral h;
     precomputedStaticStatic := precomputedStaticStatic h;
     lastTimestamp := lastTimestamp h;
     lastInitiationConsumption := lastInitiationConsumption h;
     lastSentHandshake := lastSentHandshake h |}.

Definition set_hash (v : array blake2s_Size) (h : Handshake) : Handshake :=
  {| state := state h; hash := v; chainKey := chainKey h;
     presharedKey := presharedKey h; localEphemeral := localEphemeral h;
     localIndex := localIndex h; remoteIndex := remoteIndex h;
     remoteStatic := remoteStatic h; remoteEphemeral := remoteEphemeral h;
     precomputedStaticStatic := precomputedStaticStatic h;
     lastTimestamp := lastTimestamp h;
     lastInitiationConsumption := lastInitiationConsumption h;
     lastSentHandshake := lastSentHandshake h |}.

Definition set_chainKey (v : array blake2s_Size) (h : Handshake) : Handshake :=
  {| state := state h; hash := hash h; chainKey := v;
     presharedKey := presharedKey h; localEphemeral := localEphemeral h;
     localIndex := localIndex h; remoteIndex := remoteIndex h;
     remoteStatic := remoteStatic h; remoteEphemeral := remoteEphemeral h;
     precomputedStaticStatic := precomputedStaticStatic h;
     lastTimestamp := lastTimestamp h;
     lastInitiationConsumption := lastInitiationConsumption h;
     lastSentHandshake := lastSentHandshake h |}.

Definition set_localEphemeral (v : NoisePrivateKey) (h : Handshake) : Handshake :=
  {| state := state h; hash := hash h; chainKey := chainKey h;
     presharedKey := presharedKey h; localEphemeral := v;
     localIndex := localIndex h; remoteIndex := remoteIndex h;
     remoteStatic := remoteStatic h; remoteEphemeral := remoteEphemeral h;
     precomputedStaticStatic := precomputedStaticStatic h;
     lastTimestamp := lastTimestamp h;
     lastInitiationConsumption := lastInitiationConsumption h;
     lastSentHandshake := lastSentHandshake h |}.

Definition set_localIndex (v : Z) (h : Handshake) : Handshake :=
  {| state := state h; hash := hash h; chainKey := chainKey h;
     presharedKey := presharedKey h; localEphemeral := localEphemeral h;
     localIndex := v; remoteIndex := remoteIndex h;
     remoteStatic := remoteStatic h; remoteEphemeral := remoteEphemeral h;
     precomputedStaticStatic := precomputedStaticStatic h;
     lastTimestamp := lastTimestamp h;
     lastInitiationConsumption := lastInitiationConsumption h;
     lastSentHandshake := lastSentHandshake h |}.

Definition set_remoteEphemeral (v : NoisePublicKey) (h : Handshake) : Handshake :=
  {| state := state h; hash := hash h; chainKey := chainKey h;
     presharedKey := presharedKey h; localEphemeral := localEphemeral h;
     localIndex := localIndex h; remoteIndex := remoteIndex h;
     remoteStatic := remoteStatic h; remoteEphemeral := v;
     precomputedStaticStatic := precomputedStaticStatic h;
     lastTimestamp := lastTimestamp h;
     lastInitiationConsumption := lastInitiationConsumption h;
     lastSentHandshake := lastSentHandshake h |}.

Definition set_lastTimestamp (v : tai64n_Timestamp) (h : Handshake) : Handshake :=
  {| state := state h; hash := hash h; chainKey := chainKey h;
     presharedKey := presharedKey h; localEphemeral := localEphemeral h;
     localIndex := localIndex h; remoteIndex := remoteIndex h;
     remoteStatic := remoteStatic h; remoteEphemeral := remoteEphemeral h;
     precomputedStaticStatic := precomputedStaticStatic h;
     lastTimestamp := v;
     lastInitiationConsumption := lastInitiationConsumption h;
     lastSentHandshake := lastSentHandshake h |}.

(** func (h *Handshake) Clear() *)
Definition Clear (h : Handshake) : Handshake :=
  let h := set_localEphemeral (setZero (localEphemeral h)) h in
  let h := set_remoteEphemeral (setZero (remoteEphemeral h)) h in
  let h := set_chainKey (setZero (chainKey h)) h in
  let h := set_hash (setZero (hash h)) h in
  let h := set_localIndex 0 h in
  set_state handshakeZeroed h.


(** ** The message-type constants

    The const block draws the four tags from math/rand.  What the calls
    return is not decided by this file, so the results of the four calls in
    one process are kept in a record, and the constants are read from it. *)

Record RandDraws := {
  rand_Intn : Z -> Z;
  rand_Int63 : Z;
  rand_Float32 : Q;
  rand_Float64 : Q
}.

(** The ranges math/rand documents for the four calls. *)
Definition rand_valid (g : RandDraws) : Prop :=
  (forall n, 0 < n -> 0 <= rand_Intn g n < n) /\
  0 <= rand_Int63 g < 2 ^ 63 /\
  (0 <= rand_Float32 g /\ rand_Float32 g < 1)%Q /\
  (0 <= rand_Float64 g /\ rand_Float64 g < 1)%Q.

Definition MessageInitiationType (g : RandDraws) : Z := rand_Intn g 100.
Definition MessageResponseType (g : RandDraws) : Z := rand_Int63 g.
Definition MessageCookieReplyType (g : RandDraws) : Q := rand_Float32 g.
Definition MessageTransportType (g : RandDraws) : Q := rand_Float64 g.

(** ** Timestamps *)



(** ** Errors *)

Inductive error :=
| errInvalidPublicKey
| errExternal (code : nat).

(** ** chacha20poly1305.New

    The constructor of golang.org/x/crypto refuses every key whose length
    is not KeySize. *)

Record AEAD := { aead_key : bytes }.

Definition chacha20poly1305_New (key : bytes) : option AEAD :=
  if (length key =? chacha20poly1305_KeySize)%nat
  then Some {| aead_key := key |}
  else None.

(** ** Functions the file calls and does not define

    The hash, the key derivations, the Diffie-Hellman operations and the
    sealing are taken as they come; every result below holds for each
    choice of them.  KDF1 and KDF2 are functions of the values of key and
    input (the destination of the first output may be the array the key
    is read from).  KDF2 and sharedSecret also hand back the error the
    callers test.  NewPeer is the index-table method used by
    ConsumeMessageInitiation: from the table and an index it yields the
    table it leaves and the handle of a peer. *)

Abbreviation PeerRef := nat.

Inductive IndexTableEntry :=
| EntryHandshake (peer : PeerRef)
| EntryPeer (peer : PeerRef).

Abbreviation IndexTable := (gmap Z IndexTableEntry).

Record Externals := {
  blake2s_Sum256 : bytes -> array blake2s_Size;
  KDF1 : bytes -> bytes -> array blake2s_Size;
  KDF2 : bytes -> bytes -> array blake2s_Size * array blake2s_Size * option error;
  NoisePrivateKey_publicKey : NoisePrivateKey -> NoisePublicKey;
  NoisePrivateKey_sharedSecret :
    NoisePrivateKey -> NoisePublicKey -> array NoisePublicKeySize * option error;
  AEAD_Seal : AEAD -> bytes -> bytes -> bytes -> bytes;
  IndexTable_NewPeer : IndexTable -> Z -> IndexTable * PeerRef
}.

(** What one call of CreateMessageInitiation reads from the random source
    and the clock: the result of newPrivateKey, the result of tai64n.Now
    and the successive 32-bit values drawn for the sender index. *)
Record CreateEnv := {
  env_newPrivateKey : NoisePrivateKey * option error;
  env_Now : tai64n_Timestamp;
  env_indexDraws : list Z
}.

(** ** Device, peers and the store *)

Record StaticIdentity := {
  privateKey : NoisePrivateKey;
  publicKey : NoisePublicKey
}.

Record Device := {
  staticIdentity : StaticIdentity;
  indexTable : IndexTable
}.

Record Peer := { handshake : Handshake }.

Definition zeroHandshake : Handshake :=
  {| state := handshakeZeroed;
     hash := zeroArray _; chainKey := zeroArray _;
     presharedKey := zeroArray _; localEphemeral := zeroArray _;
     localIndex := 0; remoteIndex := 0;
     remoteStatic := zeroArray _; remoteEphemeral := zeroArray _;
     precomputedStaticStatic := zeroArray _;
     lastTimestamp := zeroArray _;
     lastInitiationConsumption := 0; lastSentHandshake := 0 |}.

Definition zeroPeer : Peer := {| handshake := zeroHandshake |}.

(** The operations whose order is recorded as a run goes. *)
Inductive Event :=
| EvMixHash (data : bytes)
| EvMixKey (data : bytes)
| EvSeal (written : bytes)
| EvIndexDelete (index : Z)
| EvIndexNew (index : Z)
| EvLocalIndex (index : Z).

Record Store := {
  device : Device;
  peers : gmap PeerRef Peer;
  trace : list Event
}.

Definition set_indexTable (t : IndexTable) (s : Store) : Store :=
  {| device := {| staticIdentity := staticIdentity (device s); indexTable := t |};
     peers := peers s; trace := trace s |}.

(** A handle that the store does not hold yet denotes a peer with the zero
    value in every field. *)
Definition peerAt (s : Store) (p : PeerRef) : Peer := default zeroPeer (peers s !! p).

Definition set_peer (p : PeerRef) (v : Peer) (s : Store) : Store :=
  {| device := device s; peers := <[p := v]> (peers s); trace := trace s |}.

Definition log (e : Event) (s : Store) : Store :=
  {| device := device s; peers := peers s; trace := trace s ++ [e] |}.

(** ** The monad: state, early return, panic *)

Inductive Step (R A : Type) :=
| Next (a : A)
| Return (r : R)
| Panic.
Arguments Next {R A} a.
Arguments Return {R A} r.
Arguments Panic {R A}.

Definition Go (R A : Type) : Type := Store -> Step R A * Store.

Definition ret {R A} (a : A) : Go R A := fun s => (Next a, s).

Definition bind {R A B} (m : Go R A) (k : A -> Go R B) : Go R B :=
  fun s =>
    match m s with
    | (Next a, s') => k a s'
    | (Return r, s') => (Return r, s')
    | (Panic, s') => (Panic, s')
    end.

Definition return_ {R A} (r : R) : Go R A := fun s => (Return r, s).
Definition panic {R A} : Go R A := fun s => (Panic, s).

Declare Scope go_scope.
Delimit Scope go_scope with go.
Notation "x <- m ;; k" := (bind m (fun x => k))
  (at level 100, m at next level, right associativity) : go_scope.
Notation "m ;; k" := (bind m (fun _ => k))
  (at level 100, right associativity) : go_scope.

(** How a call ends. *)
Inductive Outcome (R : Type) :=
| Returned (r : R)
| Panicked.
Arguments Returned {R} r.
Arguments Panicked {R}.

Definition call {R} (m : Go R R) (s : Store) : Outcome R * Store :=
  match m s with
  | (Next r, s') => (Returned r, s')
  | (Return r, s') => (Returned r, s')
  | (Panic, s') => (Panicked, s')
  end.

Definition readStore {R} : Go R Store := fun s => (Next s, s).
Definition update {R} (f : Store -> Store) : Go R unit := fun s => (Next tt, f s).

(** Reading the handshake of a peer, and assigning to one of its fields. *)
Definition readH {R} (p : PeerRef) : Go R Handshake :=
  fun s => (Next (handshake (peerAt s p)), s).

Definition assignH {R} (p : PeerRef) (f : Handshake -> Handshake) : Go R unit :=
  update (fun s => set_peer p {| handshake := f (handshake (peerAt s p)) |} s).

(** ** Index table *)

(** Modelled from the spec: Delete of the index table, which is not among
    the source files; it removes the binding of an index and does nothing
    when there is none. *)
Definition IndexTable_Delete (t : IndexTable) (index : Z) : IndexTable :=
  delete index t.

(** Modelled from the spec: NewIndexForHandshake of the index table, not
    among the source files; it draws 32-bit values, tries again on a
    collision, binds the first free one to the handshake and returns it.
    It reports an error when the draws end before a free value is found. *)
Fixpoint IndexTable_NewIndexForHandshake
    (t : IndexTable) (peer : PeerRef) (draws : list Z) : IndexTable * (error + Z) :=
  match draws with
  | [] => (t, inl (errExternal 0))
  | d :: draws' =>
      let index := uint32 d in
      match t !! index with
      | None => (<[index := EntryHandshake peer]> t, inr index)
      | Some _ => IndexTable_NewIndexForHandshake t peer draws'
      end
  end.

Section Protocol.

Context (X : Externals) (g : RandDraws).

Local Open Scope go_scope.

(** func mixKey(dst, c *[blake2s.Size]byte, data []byte): the value
    written to dst. *)
Definition mixKey (c : array blake2s_Size) (data : bytes) : array blake2s_Size :=
  KDF1 X (slice c) data.

(** func mixHash(dst, h *[blake2s.Size]byte, data []byte): the value
    written to dst, the hash of h followed by data. *)
Definition mixHash (h : array blake2s_Size) (data : bytes) : array blake2s_Size :=
  blake2s_Sum256 X (slice h ++ data).

(** func init() *)
Definition InitialChainKey : array blake2s_Size :=
  blake2s_Sum256 X (list_byte_of_string NoiseConstruction).
Definition InitialHash : array blake2s_Size :=
  mixHash InitialChainKey (list_byte_of_string WGIdentifier).
Definition ZeroNonce : array chacha20poly1305_NonceSize := zeroArray _.

(** func (h *Handshake) mixHash(data []byte) *)
Definition Handshake_mixHash {R} (p : PeerRef) (data : bytes) : Go R unit :=
  assignH p (fun h => set_hash (mixHash (hash h) data) h) ;;
  update (log (EvMixHash data)).

(** func (h *Handshake) mixKey(data []byte) *)
Definition Handshake_mixKey {R} (p : PeerRef) (data : bytes) : Go R unit :=
  assignH p (fun h => set_chainKey (mixKey (chainKey h) data) h) ;;
  update (log (EvMixKey data)).

(** aead.Seal(dst[:0], nonce, plaintext, additionalData) on the result
    of chacha20poly1305.New, whose error the caller dropped: a nil AEAD
    panics; otherwise the sealed bytes go to the array behind dst, and
    the new content of that array is the result. *)
Definition seal {R n} (aead : option AEAD) (dst : array n)
    (nonce plaintext additionalData : bytes) : Go R (array n) :=
  match aead with
  | None => panic
  | Some a =>
      let dst' := appendInto dst (AEAD_Seal X a nonce plaintext additionalData) in
      update (log (EvSeal (slice dst'))) ;;
      ret dst'
  end.

(** device.indexTable.Delete(index) *)
Definition indexTable_Delete {R} (index : Z) : Go R unit :=
  update (fun s => set_indexTable (IndexTable_Delete (indexTable (device s)) index) s) ;;
  update (log (EvIndexDelete index)).

(** device.indexTable.NewIndexForHandshake(peer, handshake) *)
Definition indexTable_NewIndexForHandshake {R}
    (peer : PeerRef) (draws : list Z) : Go R (error + Z) :=
  s <- readStore ;;
  let '(t, r) := IndexTable_NewIndexForHandshake (indexTable (device s)) peer draws in
  update (set_indexTable t) ;;
  match r with
  | inl e => ret (inl e)
  | inr index => update (log (EvIndexNew index)) ;; ret (inr index)
  end.

(** device.indexTable.NewPeer(index) *)
Definition indexTable_NewPeer {R} (index : Z) : Go R PeerRef :=
  s <- readStore ;;
  let '(t, p) := IndexTable_NewPeer X (indexTable (device s)) index in
  update (set_indexTable t) ;;
  ret p.

Definition emptyInitiation : MessageInitiation :=
  {| Type_ := 0; Sender := 0; Ephemeral := zeroArray _; Static := zeroArray _;
     Timestamp := zeroArray _; MAC1 := zeroArray _; MAC2 := zeroArray _ |}.

(** func (device *Device) CreateMessageInitiation(peer *Peer): the
    pair of results is a message or an error. *)
Definition CreateMessageInitiation (env : CreateEnv) (peer : PeerRef)
    : Go (error + MessageInitiation) (error + MessageInitiation) :=
  (* create ephemeral key *)
  assignH peer (set_hash InitialHash) ;;
  assignH peer (set_chainKey InitialChainKey) ;;
  assignH peer (set_localEphemeral (fst (env_newPrivateKey env))) ;;
  match snd (env_newPrivateKey env) with
  | Some err => return_ (inl err)
  | None =>
  h <- readH peer ;;
  Handshake_mixHash peer (slice (remoteStatic h)) ;;
  h <- readH peer ;;
  let msg_Type := MessageInitiationType g in
  let msg_Ephemeral := NoisePrivateKey_publicKey X (localEphemeral h) in
  Handshake_mixKey peer (slice msg_Ephemeral) ;;
  Handshake_mixHash peer (slice msg_Ephemeral) ;;
  (* encrypt static key *)
  h <- readH peer ;;
  let '(ss, err) := NoisePrivateKey_sharedSecret X (localEphemeral h) (remoteStatic h) in
  match err with
  | Some err => return_ (inl err)
  | None =>
  let '(ck, key, _) := KDF2 X (slice (chainKey h)) (slice ss) in
  assignH peer (set_chainKey ck) ;;
  let aead := chacha20poly1305_New (slice key) in
  s <- readStore ;;
  h <- readH peer ;;
  msg_Static <- seal aead (Static emptyInitiation) (slice ZeroNonce)
                  (slice (publicKey (staticIdentity (device s)))) (slice (hash h)) ;;
  Handshake_mixHash peer (slice msg_Static) ;;
  (* encrypt timestamp *)
  h <- readH peer ;;
  if isZero (slice (precomputedStaticStatic h)) then return_ (inl errInvalidPublicKey)
  else
  let '(ck, key, _) := KDF2 X (slice (chainKey h)) (slice (precomputedStaticStatic h)) in
  assignH peer (set_chainKey ck) ;;
  let timestamp := env_Now env in
  let aead := chacha20poly1305_New (slice key) in
  h <- readH peer ;;
  msg_Timestamp <- seal aead (Timestamp emptyInitiation) (slice ZeroNonce)
                     (slice timestamp) (slice (hash h)) ;;
  (* assign index *)
  h <- readH peer ;;
  indexTable_Delete (localIndex h) ;;
  r <- indexTable_NewIndexForHandshake peer (env_indexDraws env) ;;
  match r with
  | inl err => return_ (inl err)
  | inr msg_Sender =>
  assignH peer (set_localIndex msg_Sender) ;;
  update (log (EvLocalIndex msg_Sender)) ;;
  Handshake_mixHash peer (slice msg_Timestamp) ;;
  assignH peer (set_state handshakeInitiationCreated) ;;
  ret (inr {| Type_ := msg_Type; Sender := msg_Sender;
              Ephemeral := msg_Ephemeral; Static := msg_Static;
              Timestamp := msg_Timestamp;
              MAC1 := zeroArray _; MAC2 := zeroArray _ |})
  end end end.

(** The statements of ConsumeMessageInitiation that follow the test of
    the key of the timestamp cipher (lines 290 to 294); [timestamp] is
    the local variable of that name. *)
Definition ConsumeMessageInitiation_accept (peer : PeerRef)
    (timestamp : tai64n_Timestamp) (msg : MessageInitiation)
    : Go (option PeerRef) (option PeerRef) :=
  assignH peer (set_lastTimestamp timestamp) ;;
  Handshake_mixHash peer (slice (Timestamp msg)) ;;
  assignH peer (set_state handshakeInitiationConsumed) ;;
  ret (Some peer).

(** func (device *Device) ConsumeMessageInitiation(msg *MessageInitiation):
    the result is a peer or nil. *)
Definition ConsumeMessageInitiation (msg : MessageInitiation)
    : Go (option PeerRef) (option PeerRef) :=
  let hash0 : array blake2s_Size := zeroArray _ in
  let chainKey0 : array blake2s_Size := zeroArray _ in
  if negb (Type_ msg =? MessageInitiationType g) then return_ None
  else
  s <- readStore ;;
  let hash1 := mixHash InitialHash (slice (publicKey (staticIdentity (device s)))) in
  let hash2 := mixHash hash1 (slice (Ephemeral msg)) in
  let chainKey1 := mixKey InitialChainKey (slice (Ephemeral msg)) in
  (* decrypt static key *)
  let timestamp : tai64n_Timestamp := zeroArray _ in
  let '(chainKey2, peerPK, err) := KDF2 X (slice chainKey1) (slice (Ephemeral msg)) in
  match err with
  | Some _ => return_ None
  | None =>
  indexTable_Delete (Sender msg) ;;
  peer <- indexTable_NewPeer (Sender msg) ;;
  assignH peer (set_remoteEphemeral (Ephemeral msg)) ;;
  Handshake_mixHash peer (slice (Ephemeral msg)) ;;
  (* parse timestamp *)
  match chacha20poly1305_New (slice (Timestamp msg)) with
  | None => return_ None
  | Some _ => ConsumeMessageInitiation_accept peer timestamp msg
  end end.

End Protocol.

(** ** The other messages and the layout constants *)

Record MessageResponse := {
  resp_Type : Z;
  resp_Sender : Z;
  resp_Receiver : Z;
  resp_Ephemeral : NoisePublicKey;
  resp_Empty : array poly1305_TagSize;
  resp_MAC1 : array blake2s_Size128;
  resp_MAC2 : array blake2s_Size128
}.

Record MessageTransport := {
  trans_Type : Z;
  trans_Receiver : Z;
  trans_Counter : Z;
  trans_Content : bytes
}.

Record MessageCookieReply := {
  cookie_Type : Z;
  cookie_Receiver : Z;
  cookie_Nonce : array chacha20poly1305_NonceSizeX;
  cookie_Cookie : array (blake2s_Size128 + poly1305_TagSize)
}.

Definition MessageTransportOffsetReceiver : nat := 4.
Definition MessageTransportOffsetCounter : nat := 8.
Definition MessageTransportOffsetContent : nat := 16.

(** Bytes taken by a uint32 and by a uint64 field. *)
Definition sizeof_uint32 : nat := 4.
Definition sizeof_uint64 : nat := 8.

(** Bytes taken by the fields of a message, in the order of the struct. *)
Definition MessageInitiation_fieldSizes (m : MessageInitiation) : list nat :=
  [sizeof_uint32; sizeof_uint32; length (slice (Ephemeral m));
   length (slice (Static m)); length (slice (Timestamp m));
   length (slice (MAC1 m)); length (slice (MAC2 m))].

Definition MessageResponse_fieldSizes (m : MessageResponse) : list nat :=
  [sizeof_uint32; sizeof_uint32; sizeof_uint32; length (slice (resp_Ephemeral m));
   length (slice (resp_Empty m)); length (slice (resp_MAC1 m));
   length (slice (resp_MAC2 m))].

Definition MessageCookieReply_fieldSizes (m : MessageCookieReply) : list nat :=
  [sizeof_uint32; sizeof_uint32; length (slice (cookie_Nonce m));
   length (slice (cookie_Cookie m))].

(** The fields of a transport message before Content. *)
Definition MessageTransport_headerSizes : list nat :=
  [sizeof_uint32; sizeof_uint32; sizeof_uint64].

(** The offset of field number [i]: the sizes of the fields before it. *)
Definition fieldOffset (sizes : list nat) (i : nat) : nat :=
  list_sum (take i sizes).

(** h.Clear() on the handshake of a peer of the store. *)
Definition Handshake_Clear {R} (p : PeerRef) : Go R unit := assignH p Clear.

(** ** A small instance to run the functions on

    Stand-ins for the functions taken as given, simple enough to be
    evaluated; they are used for concrete runs only. *)
Module Sample.

Definition byteOfZ (z : Z) : byte :=
  default x00 (Byte.of_N (Z.to_N (z mod 256))).

Definition checksum (l : bytes) : Z :=
  fold_left (fun acc b => (2 * acc + Z.of_N (Byte.to_N b) + 1) mod 256) l 7.

Definition digest (l : bytes) : array blake2s_Size :=
  vcons (byteOfZ (checksum l)) (vreplicate 31 (byteOfZ (Z.of_nat (length l)))).

Definition tag (l : bytes) : bytes :=
  replicate poly1305_TagSize (byteOfZ (checksum l)).

(** Modelled from the spec: NewPeer of the index table, not among the
    source files, of which the spec gives the signature only; here it
    binds the index to a peer entry and returns the handle of that peer,
    the handle being the number of the index. *)
Definition newPeer (t : IndexTable) (index : Z) : IndexTable * PeerRef :=
  (<[index := EntryPeer (Z.to_nat index)]> t, Z.to_nat index).

Definition externals : Externals :=
  {| blake2s_Sum256 := digest;
     KDF1 := fun key input => digest (key ++ input ++ [x01]);
     KDF2 := fun key input =>
       (digest (key ++ input ++ [x01]), digest (key ++ input ++ [x02]), None);
     NoisePrivateKey_publicKey := fun sk => digest (slice sk ++ [x09]);
     NoisePrivateKey_sharedSecret := fun sk pk =>
       (digest (slice sk ++ slice pk), None);
     AEAD_Seal := fun a nonce plaintext ad =>
       plaintext ++ tag (aead_key a ++ nonce ++ plaintext ++ ad);
     IndexTable_NewPeer := newPeer |}.

(** Two processes whose generators gave different results, and one
    whose four results are all zero. *)
Definition procA : RandDraws :=
  {| rand_Intn := fun n => 1 mod n; rand_Int63 := 2;
     rand_Float32 := 1 # 2; rand_Float64 := 1 # 4 |}.
Definition procB : RandDraws :=
  {| rand_Intn := fun n => 37 mod n; rand_Int63 := 4611686018427387904;
     rand_Float32 := 1 # 8; rand_Float64 := 3 # 4 |}.
Definition procZero : RandDraws :=
  {| rand_Intn := fun n => 0; rand_Int63 := 0;
     rand_Float32 := 0; rand_Float64 := 0 |}.

Definition key (b : byte) : array 32 := vreplicate 32 b.

(** The initiator: static key pair, one peer (handle 1) that holds the
    responder's public key and a non-zero precomputed secret, and whose
    last attempt had local index 5. *)
Definition skI : NoisePrivateKey := key x11.
Definition skR : NoisePrivateKey := key x22.
Definition pkI : NoisePublicKey := NoisePrivateKey_publicKey externals skI.
Definition pkR : NoisePublicKey := NoisePrivateKey_publicKey externals skR.

Definition peerR_at_I : Peer :=
  {| handshake :=
       {| state := handshakeZeroed;
          hash := zeroArray _; chainKey := zeroArray _;
          presharedKey := zeroArray _; localEphemeral := zeroArray _;
          localIndex := 5; remoteIndex := 0;
          remoteStatic := pkR; remoteEphemeral := zeroArray _;
          precomputedStaticStatic := key x33;
          lastTimestamp := zeroArray _;
          lastInitiationConsumption := 0; lastSentHandshake := 0 |} |}.

Definition storeI : Store :=
  {| device := {| staticIdentity := {| privateKey := skI; publicKey := pkI |};
                  indexTable := {[ 5 := EntryHandshake 1%nat; 12 := EntryPeer 3%nat ]} |};
     peers := {[ 1%nat := peerR_at_I ]};
     trace := [] |}.

Definition envI : CreateEnv :=
  {| env_newPrivateKey := (key x44, None);
     env_Now := vreplicate 12 x05;
     env_indexDraws := [12; 9] |}.

(** The same peer with the precomputed secret left at zero. *)
Definition storeI_unconfigured : Store :=
  {| device := device storeI;
     peers := {[ 1%nat :=
       {| handshake :=
            {| state := handshakeZeroed;
               hash := zeroArray _; chainKey := zeroArray _;
               presharedKey := zeroArray _; localEphemeral := zeroArray _;
               localIndex := 5; remoteIndex := 0;
               remoteStatic := pkR; remoteEphemeral := zeroArray _;
               precomputedStaticStatic := zeroArray _;
               lastTimestamp := zeroArray _;
               lastInitiationConsumption := 0; lastSentHandshake := 0 |} |} ]};
     trace := [] |}.

(** The responder: static key pair, and the record it keeps of the
    initiator (handle 9) with a non-zero precomputed secret; no
    initiation has been accepted yet.  Index 9 is bound in its table. *)
Definition peerI_at_R : Peer :=
  {| handshake :=
       {| state := handshakeZeroed;
          hash := zeroArray _; chainKey := zeroArray _;
          presharedKey := zeroArray _; localEphemeral := zeroArray _;
          localIndex := 0; remoteIndex := 0;
          remoteStatic := pkI; remoteEphemeral := zeroArray _;
          precomputedStaticStatic := key x33;
          lastTimestamp := zeroArray _;
          lastInitiationConsumption := 0; lastSentHandshake := 0 |} |}.

Definition storeR : Store :=
  {| device := {| staticIdentity := {| privateKey := skR; publicKey := pkR |};
                  indexTable := {[ 9 := EntryHandshake 9%nat ]} |};
     peers := {[ 9%nat := peerI_at_R ]};
     trace := [] |}.

(** The responder after it accepted a later initiation of the same peer:
    the record holds the timestamp, the ephemeral key and the transcript
    of that attempt. *)
Definition peerI_at_R_seen : Peer :=
  {| handshake :=
       {| state := handshakeInitiationConsumed;
          hash := key x66; chainKey := key x67;
          presharedKey := zeroArray _; localEphemeral := zeroArray _;
          localIndex := 0; remoteIndex := 9;
          remoteStatic := pkI; remoteEphemeral := key x68;
          precomputedStaticStatic := key x33;
          lastTimestamp := vreplicate 12 x09;
          lastInitiationConsumption := 100; lastSentHandshake := 0 |} |}.

Definition storeR_seen : Store :=
  {| device := device storeR;
     peers := {[ 9%nat := peerI_at_R_seen ]};
     trace := [] |}.

(** The message the initiator produces in [storeI] under [envI]. *)
Definition initiation : MessageInitiation :=
  match fst (call (CreateMessageInitiation externals procA envI 1%nat) storeI) with
  | Returned (inr msg) => msg
  | _ => emptyInitiation
  end.

(** A message with the right tag whose sealed fields are not the work
    of any sender. *)
Definition forged : MessageInitiation :=
  {| Type_ := 1; Sender := 9; Ephemeral := key xaa;
     Static := zeroArray _; Timestamp := zeroArray _;
     MAC1 := zeroArray _; MAC2 := zeroArray _ |}.

End Sample.

(** Further inputs for concrete runs. *)
Module MoreSamples.

Import Sample.

(** The random source fails when the ephemeral key is drawn. *)
Definition envKeyFails : CreateEnv :=
  {| env_newPrivateKey := (key x44, Some (errExternal 1));
     env_Now := vreplicate 12 x05;
     env_indexDraws := [12; 9] |}.

(** Every value drawn for the sender index is bound already. *)
Definition envNoFreeIndex : CreateEnv :=
  {| env_newPrivateKey := (key x44, None);
     env_Now := vreplicate 12 x05;
     env_indexDraws := [12; 12] |}.

(** A later attempt of the initiator. *)
Definition envLater : CreateEnv :=
  {| env_newPrivateKey := (key x55, None);
     env_Now := vreplicate 12 x06;
     env_indexDraws := [20] |}.

(** The store of the initiator after the run that made [initiation]. *)
Definition storeI1 : Store :=
  (call (CreateMessageInitiation externals procA envI 1%nat) storeI).2.

(** The message of the later attempt, made in [storeI1], and the store
    that run leaves. *)
Definition initiation2 : MessageInitiation :=
  match (call (CreateMessageInitiation externals procA envLater 1%nat) storeI1).1 with
  | Returned (inr msg) => msg
  | _ => emptyInitiation
  end.

Definition storeI2 : Store :=
  (call (CreateMessageInitiation externals procA envLater 1%nat) storeI1).2.

(** The same later attempt after Clear on the handshake. *)
Definition storeI1_cleared : Store :=
  (call (Handshake_Clear (R := unit) 1%nat) storeI1).2.

Definition initiation2_cleared : MessageInitiation :=
  match (call (CreateMessageInitiation externals procA envLater 1%nat)
           storeI1_cleared).1 with
  | Returned (inr msg) => msg
  | _ => emptyInitiation
  end.

Definition storeI2_cleared : Store :=
  (call (CreateMessageInitiation externals procA envLater 1%nat) storeI1_cleared).2.

(** [initiation] with another tag. *)
Definition wrongType : MessageInitiation :=
  {| Type_ := 2; Sender := Sender initiation; Ephemeral := Ephemeral initiation;
     Static := Static initiation; Timestamp := Timestamp initiation;
     MAC1 := MAC1 initiation; MAC2 := MAC2 initiation |}.

(** [initiation] with its sealed fields and MACs replaced. *)
Definition resealed : MessageInitiation :=
  {| Type_ := Type_ initiation; Sender := Sender initiation;
     Ephemeral := Ephemeral initiation;
     Static := vreplicate _ xff; Timestamp := vreplicate _ xee;
     MAC1 := vreplicate _ x01; MAC2 := vreplicate _ x02 |}.

End MoreSamples.

(** Variants of the stand-ins: any NewPeer in place of [Sample.newPeer],
    and a KDF2 that reports an error. *)
Module Variants.

Import Sample.


(** The stand-ins of [Sample] with a KDF2 that hands back an error. *)
Definition externalsKDF2Fails : Externals :=
  {| blake2s_Sum256 := blake2s_Sum256 externals;
     KDF1 := KDF1 externals;
     KDF2 := fun key input =>
       (digest (key ++ input ++ [x01]), digest (key ++ input ++ [x02]),
        Some (errExternal 2));
     NoisePrivateKey_publicKey := NoisePrivateKey_publicKey externals;
     NoisePrivateKey_sharedSecret := NoisePrivateKey_sharedSecret externals;
     AEAD_Seal := AEAD_Seal externals;
     IndexTable_NewPeer := IndexTable_NewPeer externals |}.



End Variants.
(** ** Facts on arrays *)

Lemma setZero_zeroArray {n} (a : array n) : setZero a = zeroArray n.
Proof.
  unfold setZero, zeroArray.
  induction a as [|x n a IH]; simpl; [reflexivity|].
  f_equal. exact IH.
Qed.

Lemma isZero_zeroArray n : isZero (slice (zeroArray n)) = true.
Proof.
  unfold isZero, slice, zeroArray.
  induction n as [|n IH]; simpl; [reflexivity|exact IH].
Qed.

Lemma setZero_idem {n} (a : array n) : setZero (setZero a) = setZero a.
Proof. by rewrite !setZero_zeroArray. Qed.

(** ** Clear *)

(** C9: after Clear the two ephemeral keys, the chain key and the hash are
    all-zero, localIndex is 0 and the state is handshakeZeroed; clearing a
    cleared handshake changes nothing. *)
Theorem Clear_zeroes_and_idempotent (h : Handshake) :
  localEphemeral (Clear h) = zeroArray NoisePrivateKeySize /\
  remoteEphemeral (Clear h) = zeroArray NoisePublicKeySize /\
  chainKey (Clear h) = zeroArray blake2s_Size /\
  hash (Clear h) = zeroArray blake2s_Size /\
  isZero (slice (localEphemeral (Clear h))) = true /\
  isZero (slice (remoteEphemeral (Clear h))) = true /\
  isZero (slice (chainKey (Clear h))) = true /\
  isZero (slice (hash (Clear h))) = true /\
  localIndex (Clear h) = 0 /\
  state (Clear h) = handshakeZeroed /\
  Clear (Clear h) = Clear h.
Proof.
  destruct h; unfold Clear; cbn.
  rewrite !setZero_zeroArray, !isZero_zeroArray.
  repeat split; reflexivity.
Qed.

(** C10: Clear keeps every field it does not reset: remoteIndex,
    remoteStatic, presharedKey, precomputedStaticStatic, lastTimestamp,
    lastInitiationConsumption and lastSentHandshake. *)
Theorem Clear_frame (h : Handshake) :
  remoteIndex (Clear h) = remoteIndex h /\
  remoteStatic (Clear h) = remoteStatic h /\
  presharedKey (Clear h) = presharedKey h /\
  precomputedStaticStatic (Clear h) = precomputedStaticStatic h /\
  lastTimestamp (Clear h) = lastTimestamp h /\
  lastInitiationConsumption (Clear h) = lastInitiationConsumption h /\
  lastSentHandshake (Clear h) = lastSentHandshake h.
Proof. repeat split; reflexivity. Qed.

(** ** Facts on the store, the index table and the cipher constructor *)

Lemma peerAt_insert d (m : gmap PeerRef Peer) t p v :
  peerAt {| device := d; peers := <[p := v]> m; trace := t |} p = v.
Proof. unfold peerAt; cbn. by rewrite lookup_insert_eq. Qed.

Lemma New_of_key (key : array chacha20poly1305_KeySize) :
  chacha20poly1305_New (slice key) = Some {| aead_key := slice key |}.
Proof.
  unfold chacha20poly1305_New, slice. by rewrite length_vec_to_list.
Qed.

Lemma New_of_sealed_timestamp
    (field : array (tai64n_TimestampSize + poly1305_TagSize)) :
  chacha20poly1305_New (slice field) = None.
Proof.
  unfold chacha20poly1305_New, slice. by rewrite length_vec_to_list.
Qed.

(** An index handed out was free, is below 2^32, and is bound to the
    handshake in the table that results; on an error the table is as it
    was. *)
Lemma NewIndexForHandshake_inr (t t' : IndexTable) peer draws index :
  IndexTable_NewIndexForHandshake t peer draws = (t', inr index) ->
  t !! index = None /\ t' = <[index := EntryHandshake peer]> t /\
  0 <= index < 2 ^ 32.
Proof.
  induction draws as [|d draws IH]; cbn [IndexTable_NewIndexForHandshake].
  - discriminate.
  - destruct (t !! uint32 d) eqn:Hd.
    + exact IH.
    + intros [= <- <-]. repeat split; [exact Hd|apply Z.mod_pos_bound; lia..].
Qed.

Lemma NewIndexForHandshake_inl (t t' : IndexTable) peer draws e :
  IndexTable_NewIndexForHandshake t peer draws = (t', inl e) -> t' = t.
Proof.
  induction draws as [|d draws IH]; cbn [IndexTable_NewIndexForHandshake].
  - by intros [= <- _].
  - destruct (t !! uint32 d); [exact IH|discriminate].
Qed.

Section Runs.

Context (X : Externals) (g : RandDraws).

(** *** Single steps of a run *)

Lemma run_assignH {R B} p f (k : unit -> Go R B) s :
  bind (assignH p f) k s =
    k tt (set_peer p {| handshake := f (handshake (peerAt s p)) |} s).
Proof. reflexivity. Qed.

Lemma run_readH {R B} p (k : Handshake -> Go R B) s :
  bind (readH p) k s = k (handshake (peerAt s p)) s.
Proof. reflexivity. Qed.

Lemma run_readStore {R B} (k : Store -> Go R B) s :
  bind readStore k s = k s s.
Proof. reflexivity. Qed.

Lemma run_update {R B} f (k : unit -> Go R B) s :
  bind (update f) k s = k tt (f s).
Proof. reflexivity. Qed.

Lemma run_mixHash {R B} p data (k : unit -> Go R B) s :
  bind (Handshake_mixHash X p data) k s =
    k tt (log (EvMixHash data)
            (set_peer p {| handshake :=
               set_hash (mixHash X (hash (handshake (peerAt s p))) data)
                 (handshake (peerAt s p)) |} s)).
Proof. reflexivity. Qed.

Lemma run_mixKey {R B} p data (k : unit -> Go R B) s :
  bind (Handshake_mixKey X p data) k s =
    k tt (log (EvMixKey data)
            (set_peer p {| handshake :=
               set_chainKey (mixKey X (chainKey (handshake (peerAt s p))) data)
                 (handshake (peerAt s p)) |} s)).
Proof. reflexivity. Qed.

Lemma run_seal {R B n} (key : array chacha20poly1305_KeySize) (dst : array n)
    nonce plaintext ad (k : array n -> Go R B) s :
  bind (seal X (chacha20poly1305_New (slice key)) dst nonce plaintext ad) k s =
    let dst' := appendInto dst
                  (AEAD_Seal X {| aead_key := slice key |} nonce plaintext ad) in
    k dst' (log (EvSeal (slice dst')) s).
Proof. rewrite New_of_key. reflexivity. Qed.

Lemma run_Delete {R B} index (k : unit -> Go R B) s :
  bind (indexTable_Delete index) k s =
    k tt (log (EvIndexDelete index)
            (set_indexTable (IndexTable_Delete (indexTable (device s)) index) s)).
Proof. reflexivity. Qed.

Lemma run_NewIndexForHandshake {R B} peer draws (k : error + Z -> Go R B) s :
  bind (indexTable_NewIndexForHandshake peer draws) k s =
    match IndexTable_NewIndexForHandshake (indexTable (device s)) peer draws with
    | (t, inl e) => k (inl e) (set_indexTable t s)
    | (t, inr index) => k (inr index) (log (EvIndexNew index) (set_indexTable t s))
    end.
Proof.
  unfold indexTable_NewIndexForHandshake, bind, readStore, update, ret.
  by destruct (IndexTable_NewIndexForHandshake _ _ _) as [t [e|index]].
Qed.

Lemma run_NewPeer {R B} index (k : PeerRef -> Go R B) s :
  bind (indexTable_NewPeer X index) k s =
    let t := IndexTable_NewPeer X (indexTable (device s)) index in
    k t.2 (set_indexTable t.1 s).
Proof.
  unfold indexTable_NewPeer, bind, readStore, update, ret.
  by destruct (IndexTable_NewPeer X _ _) as [t p].
Qed.

Ltac run_norm :=
  cbv beta zeta delta [set_peer log set_indexTable];
  cbn [device peers trace staticIdentity indexTable];
  rewrite ?insert_insert_eq, ?peerAt_insert;
  cbv beta delta [set_state set_hash set_chainKey set_localEphemeral
                  set_localIndex set_remoteEphemeral set_lastTimestamp];
  cbn [handshake state hash chainKey presharedKey localEphemeral localIndex
       remoteIndex remoteStatic remoteEphemeral precomputedStaticStatic
       lastTimestamp lastInitiationConsumption lastSentHandshake].

Ltac run_step :=
  first [ rewrite run_assignH | rewrite run_readH | rewrite run_readStore
        | rewrite run_mixHash | rewrite run_mixKey | rewrite run_seal
        | rewrite run_Delete | rewrite run_update ];
  run_norm.

(** The first assignment of a run, after which the store and the
    handshake of the peer are spelled out field by field. *)
Ltac run_start s peer :=
  let E := fresh "E" in
  let h0 := fresh "h" in
  remember (handshake (peerAt s peer)) as h0 eqn:E;
  destruct s as [[? ?] ? ?];
  rewrite run_assignH, <- E; clear E;
  destruct h0; run_norm.

(** *** ConsumeMessageInitiation, case by case *)

Lemma ConsumeMessageInitiation_run (msg : MessageInitiation) (s : Store) :
  call (ConsumeMessageInitiation X g msg) s =
    if negb (Type_ msg =? MessageInitiationType g) then (Returned None, s)
    else
      match (KDF2 X (slice (mixKey X (InitialChainKey X) (slice (Ephemeral msg))))
               (slice (Ephemeral msg))).2 with
      | Some _ => (Returned None, s)
      | None =>
          let t := IndexTable_NewPeer X
                     (IndexTable_Delete (indexTable (device s)) (Sender msg))
                     (Sender msg) in
          let h := handshake (peerAt s t.2) in
          (Returned None,
           {| device := {| staticIdentity := staticIdentity (device s);
                           indexTable := t.1 |};
              peers := <[t.2 := {| handshake :=
                           set_hash (mixHash X (hash h) (slice (Ephemeral msg)))
                             (set_remoteEphemeral (Ephemeral msg) h) |}]> (peers s);
              trace := trace s ++ [EvIndexDelete (Sender msg);
                                   EvMixHash (slice (Ephemeral msg))] |})
      end.
Proof.
  unfold call, ConsumeMessageInitiation.
  destruct (negb (Type_ msg =? MessageInitiationType g)); [reflexivity|].
  rewrite run_readStore; cbv beta zeta.
  destruct (KDF2 X _ _) as [[ck pk] [e|]]; [reflexivity|].
  rewrite New_of_sealed_timestamp, run_Delete, run_NewPeer.
  cbn [device indexTable set_indexTable log]; cbv zeta.
  destruct (IndexTable_NewPeer X _ _) as [t p]; cbn [fst snd].
  rewrite run_assignH, run_mixHash.
  destruct s as [[si tbl] ps tr].
  unfold return_, set_peer, log, set_indexTable, peerAt; cbn.
  by rewrite lookup_insert_eq, insert_insert_eq, <- app_assoc.
Qed.

(** Whatever the message and the store, the call returns nil. *)
Corollary ConsumeMessageInitiation_returns_nil (msg : MessageInitiation) (s : Store) :
  (call (ConsumeMessageInitiation X g msg) s).1 = Returned None.
Proof.
  rewrite ConsumeMessageInitiation_run.
  destruct (negb _); [reflexivity|].
  by destruct (KDF2 X _ _).2.
Qed.

(** C6: a message that carries the initiation tag is never accepted: the
    28 bytes of its sealed timestamp are given to the cipher constructor
    as the key, the constructor refuses them, and the call returns nil.
    When KDF2 reported an error nothing was touched; otherwise the index
    table had the sender index deleted and given to NewPeer, and the peer
    that NewPeer handed back had its remoteEphemeral overwritten by the
    ephemeral key of the message and that key mixed into its hash, its
    other fields being as before. *)
Theorem ConsumeMessageInitiation_never_accepts (msg : MessageInitiation) (s : Store) :
  Type_ msg = MessageInitiationType g ->
  let r := call (ConsumeMessageInitiation X g msg) s in
  length (slice (Timestamp msg)) = 28%nat /\
  chacha20poly1305_New (slice (Timestamp msg)) = None /\
  r.1 = Returned None /\
  match (KDF2 X (slice (mixKey X (InitialChainKey X) (slice (Ephemeral msg))))
           (slice (Ephemeral msg))).2 with
  | Some _ => r.2 = s
  | None =>
      let t := IndexTable_NewPeer X
                 (IndexTable_Delete (indexTable (device s)) (Sender msg))
                 (Sender msg) in
      let h := handshake (peerAt s t.2) in
      indexTable (device r.2) = t.1 /\
      remoteEphemeral (handshake (peerAt r.2 t.2)) = Ephemeral msg /\
      hash (handshake (peerAt r.2 t.2)) = mixHash X (hash h) (slice (Ephemeral msg)) /\
      handshake (peerAt r.2 t.2) =
        set_hash (mixHash X (hash h) (slice (Ephemeral msg)))
          (set_remoteEphemeral (Ephemeral msg) h)
  end.
Proof.
  intros Hty r. subst r. rewrite ConsumeMessageInitiation_run.
  rewrite Hty, Z.eqb_refl. cbn [negb].
  split; [apply length_vec_to_list|].
  split; [apply New_of_sealed_timestamp|].
  destruct (KDF2 X _ _).2; [by split|].
  cbv zeta. cbn [fst snd device indexTable].
  rewrite peerAt_insert. by repeat split.
Qed.

(** The statements after the test of the cipher key: they return the
    peer, store the timestamp they are given, mix the sealed timestamp into
    the hash and set the state, and leave remoteIndex and remoteEphemeral
    as they were. *)
Lemma ConsumeMessageInitiation_accept_run peer timestamp msg s :
  let r := call (ConsumeMessageInitiation_accept X peer timestamp msg) s in
  let h := handshake (peerAt s peer) in
  r.1 = Returned (Some peer) /\
  handshake (peerAt r.2 peer) =
    set_state handshakeInitiationConsumed
      (set_hash (mixHash X (hash h) (slice (Timestamp msg)))
         (set_lastTimestamp timestamp h)) /\
  remoteIndex (handshake (peerAt r.2 peer)) = remoteIndex h /\
  indexTable (device r.2) = indexTable (device s).
Proof.
  unfold call, ConsumeMessageInitiation_accept.
  rewrite run_assignH, run_mixHash, run_assignH.
  destruct s as [[si tbl] ps tr].
  unfold ret, set_peer, log, peerAt; cbn.
  rewrite !lookup_insert_eq; cbn. by repeat split.
Qed.

(** C7: when the precomputed static-static secret of the peer is all-zero,
    CreateMessageInitiation returns an error and no message. *)
Theorem CreateMessageInitiation_unconfigured_peer
    (env : CreateEnv) (peer : PeerRef) (s : Store) :
  isZero (slice (precomputedStaticStatic (handshake (peerAt s peer)))) = true ->
  exists err,
    (call (CreateMessageInitiation X g env peer) s).1 = Returned (inl err).
Proof.
  intros Hz. unfold call, CreateMessageInitiation.
  run_start s peer. cbn [handshake precomputedStaticStatic] in Hz.
  do 2 run_step.
  destruct (env_newPrivateKey env).2 as [e|]; [by exists e|].
  do 6 run_step.
  destruct (NoisePrivateKey_sharedSecret X _ _) as [ss [e|]]; [by exists e|].
  destruct (KDF2 X _ _) as [[ck key] e'].
  do 6 run_step.
  rewrite Hz. by exists errInvalidPublicKey.
Qed.

(** C8: on a successful run the operations come in this order: the
    timestamp is sealed, the previous local index is deleted from the
    table, a sender index that is free in the table is bound to the
    handshake, it is stored as localIndex, and then the sealed timestamp
    is mixed into the hash, which happens at no earlier point of the run. *)
Theorem CreateMessageInitiation_index_order
    (env : CreateEnv) (peer : PeerRef) (s s' : Store) (msg : MessageInitiation) :
  call (CreateMessageInitiation X g env peer) s = (Returned (inr msg), s') ->
  let h0 := handshake (peerAt s peer) in
  let old := localIndex h0 in
  let table := IndexTable_Delete (indexTable (device s)) old in
  let sealed := slice (Timestamp msg) in
  let front :=
    [EvMixHash (slice (remoteStatic h0));
     EvMixKey (slice (Ephemeral msg));
     EvMixHash (slice (Ephemeral msg));
     EvSeal (slice (Static msg));
     EvMixHash (slice (Static msg));
     EvSeal sealed;
     EvIndexDelete old;
     EvIndexNew (Sender msg);
     EvLocalIndex (Sender msg)] in
  trace s' = trace s ++ front ++ [EvMixHash sealed] /\
  ~ In (EvMixHash sealed) front /\
  table !! Sender msg = None /\
  indexTable (device s') = <[Sender msg := EntryHandshake peer]> table /\
  localIndex (handshake (peerAt s' peer)) = Sender msg /\
  state (handshake (peerAt s' peer)) = handshakeInitiationCreated /\
  hash (handshake (peerAt s' peer)) =
    mixHash X
      (mixHash X
         (mixHash X
            (mixHash X (InitialHash X) (slice (remoteStatic h0)))
            (slice (Ephemeral msg)))
         (slice (Static msg)))
      sealed.
Proof.
  intros H. revert H. unfold call, CreateMessageInitiation.
  run_start s peer.
  do 2 run_step.
  destruct (env_newPrivateKey env).2 as [e|]; [discriminate|].
  do 6 run_step.
  destruct (NoisePrivateKey_sharedSecret X _ _) as [ss [e|]]; [discriminate|].
  destruct (KDF2 X _ _) as [[ck key] e'].
  do 6 run_step.
  destruct (isZero _); [discriminate|].
  destruct (KDF2 X _ _) as [[ck' key'] e''].
  do 5 run_step.
  rewrite run_NewIndexForHandshake; run_norm.
  destruct (IndexTable_NewIndexForHandshake _ _ _) as [t [e|index]] eqn:Hnew;
    [discriminate|].
  apply NewIndexForHandshake_inr in Hnew as (Hfree & -> & _).
  do 4 run_step.
  unfold ret. intros [= <- <-].
  cbn [Sender Ephemeral Static Timestamp trace device indexTable].
  rewrite peerAt_insert. cbn [handshake state hash localIndex].
  repeat split; try done.
  - by rewrite <- !app_assoc.
  - cbn [In]. intros Hin.
    repeat (destruct Hin as [Hin|Hin]; [try discriminate|]); try done.
    all: injection Hin as Hin; apply (f_equal length) in Hin;
      unfold slice in Hin; rewrite !length_vec_to_list in Hin; discriminate.
Qed.

(** *** Further properties of CreateMessageInitiation *)

(** At the end of a branch: the pair of result and store is spelled out. *)
Ltac run_exit :=
  unfold return_, ret; cbv beta iota zeta; cbn [fst snd];
  rewrite ?peerAt_insert;
  cbn [device peers trace staticIdentity indexTable
       handshake state hash chainKey presharedKey localEphemeral localIndex
       remoteIndex remoteStatic remoteEphemeral precomputedStaticStatic
       lastTimestamp lastInitiationConsumption lastSentHandshake].

Ltac frame_done :=
  run_exit; split_and!; try reflexivity; intros; by rewrite lookup_insert_ne.

(** X1: CreateMessageInitiation never panics: the keys it hands to
    chacha20poly1305.New have the length the constructor asks for, so the
    two AEADs whose construction error is dropped are never nil. *)
Theorem CreateMessageInitiation_no_panic
    (env : CreateEnv) (peer : PeerRef) (s : Store) :
  exists r, (call (CreateMessageInitiation X g env peer) s).1 = Returned r.
Proof.
  unfold call, CreateMessageInitiation.
  run_start s peer.
  do 2 run_step.
  destruct (env_newPrivateKey env).2 as [e|]; [by eexists|].
  do 6 run_step.
  destruct (NoisePrivateKey_sharedSecret X _ _) as [ss [e|]]; [by eexists|].
  destruct (KDF2 X _ _) as [[ck key] e'].
  do 6 run_step.
  destruct (isZero _); [by eexists|].
  destruct (KDF2 X _ _) as [[ck' key'] e''].
  do 5 run_step.
  rewrite run_NewIndexForHandshake; run_norm.
  destruct (IndexTable_NewIndexForHandshake _ _ _) as [t [e|index]];
    [by eexists|].
  do 4 run_step. by eexists.
Qed.

(** X2: in every outcome CreateMessageInitiation leaves alone the fields
    remoteStatic, presharedKey, precomputedStaticStatic, remoteIndex,
    remoteEphemeral, lastTimestamp, lastInitiationConsumption and
    lastSentHandshake of the peer, the static identity of the device, and
    every other peer. *)
Theorem CreateMessageInitiation_frame
    (env : CreateEnv) (peer : PeerRef) (s : Store) :
  let s' := (call (CreateMessageInitiation X g env peer) s).2 in
  let h := handshake (peerAt s peer) in
  let h' := handshake (peerAt s' peer) in
  remoteStatic h' = remoteStatic h /\
  presharedKey h' = presharedKey h /\
  precomputedStaticStatic h' = precomputedStaticStatic h /\
  remoteIndex h' = remoteIndex h /\
  remoteEphemeral h' = remoteEphemeral h /\
  lastTimestamp h' = lastTimestamp h /\
  lastInitiationConsumption h' = lastInitiationConsumption h /\
  lastSentHandshake h' = lastSentHandshake h /\
  staticIdentity (device s') = staticIdentity (device s) /\
  forall q, q <> peer -> peers s' !! q = peers s !! q.
Proof.
  unfold call, CreateMessageInitiation.
  run_start s peer.
  do 2 run_step.
  destruct (env_newPrivateKey env).2 as [e|]; [frame_done|].
  do 6 run_step.
  destruct (NoisePrivateKey_sharedSecret X _ _) as [ss [e|]]; [frame_done|].
  destruct (KDF2 X _ _) as [[ck key] e'].
  do 6 run_step.
  destruct (isZero _); [frame_done|].
  destruct (KDF2 X _ _) as [[ck' key'] e''].
  do 5 run_step.
  rewrite run_NewIndexForHandshake; run_norm.
  destruct (IndexTable_NewIndexForHandshake _ _ _) as [t [e|index]];
    [frame_done|].
  do 4 run_step. frame_done.
Qed.

(** X3: when newPrivateKey fails, its error is returned; by then the hash
    and the chain key of the peer have been reset to the initial values
    and localEphemeral holds what newPrivateKey gave, and nothing else of
    the store is different. *)
Theorem CreateMessageInitiation_key_error
    (env : CreateEnv) (peer : PeerRef) (s : Store) (e : error) :
  (env_newPrivateKey env).2 = Some e ->
  call (CreateMessageInitiation X g env peer) s =
    (Returned (inl e),
     set_peer peer
       {| handshake :=
            set_localEphemeral (env_newPrivateKey env).1
              (set_chainKey (InitialChainKey X)
                 (set_hash (InitialHash X) (handshake (peerAt s peer)))) |} s).
Proof.
  intros He. unfold call, CreateMessageInitiation.
  run_start s peer. do 2 run_step. by rewrite He.
Qed.

(** X4: whenever CreateMessageInitiation returns an error, the state and
    the localIndex of the peer are what they were and the index table has
    gained no binding: every index it binds was bound to the same entry
    before. *)
Theorem CreateMessageInitiation_failure_adds_no_index
    (env : CreateEnv) (peer : PeerRef) (s s' : Store) (e : error) :
  call (CreateMessageInitiation X g env peer) s = (Returned (inl e), s') ->
  state (handshake (peerAt s' peer)) = state (handshake (peerAt s peer)) /\
  localIndex (handshake (peerAt s' peer)) = localIndex (handshake (peerAt s peer)) /\
  forall j v, indexTable (device s') !! j = Some v ->
              indexTable (device s) !! j = Some v.
Proof.
  intros H. revert H. unfold call, CreateMessageInitiation.
  run_start s peer.
  do 2 run_step.
  destruct (env_newPrivateKey env).2 as [e0|];
    [run_exit; intros [= _ <-]; run_exit; by split_and!|].
  do 6 run_step.
  destruct (NoisePrivateKey_sharedSecret X _ _) as [ss [e0|]];
    [run_exit; intros [= _ <-]; run_exit; by split_and!|].
  destruct (KDF2 X _ _) as [[ck key] e'].
  do 6 run_step.
  destruct (isZero _);
    [run_exit; intros [= _ <-]; run_exit; by split_and!|].
  destruct (KDF2 X _ _) as [[ck' key'] e''].
  do 5 run_step.
  rewrite run_NewIndexForHandshake; run_norm.
  destruct (IndexTable_NewIndexForHandshake _ _ _) as [t [e0|index]] eqn:Hnew.
  - apply NewIndexForHandshake_inl in Hnew as ->.
    run_exit; intros [= _ <-]; run_exit. split_and!; [done..|].
    intros j v. unfold IndexTable_Delete. rewrite lookup_delete_Some. tauto.
  - do 4 run_step. run_exit. discriminate.
Qed.

(** X5: when the draws give no free index, with the earlier steps passing,
    the error of the allocation is returned after the previous local index
    has been deleted from the table: the table is the old one without that
    index, while localIndex still names it and the state is not
    handshakeInitiationCreated unless it was before. *)
Theorem CreateMessageInitiation_allocation_error
    (env : CreateEnv) (peer : PeerRef) (s : Store) (t : IndexTable) (e : error) :
  let h := handshake (peerAt s peer) in
  (env_newPrivateKey env).2 = None ->
  (NoisePrivateKey_sharedSecret X (env_newPrivateKey env).1 (remoteStatic h)).2 = None ->
  isZero (slice (precomputedStaticStatic h)) = false ->
  IndexTable_NewIndexForHandshake
    (IndexTable_Delete (indexTable (device s)) (localIndex h)) peer
    (env_indexDraws env) = (t, inl e) ->
  let r := call (CreateMessageInitiation X g env peer) s in
  r.1 = Returned (inl e) /\
  indexTable (device r.2) = IndexTable_Delete (indexTable (device s)) (localIndex h) /\
  indexTable (device r.2) !! localIndex h = None /\
  localIndex (handshake (peerAt r.2 peer)) = localIndex h /\
  state (handshake (peerAt r.2 peer)) = state h.
Proof.
  intros h Hk Hss Hz Hnew. subst h. revert Hss Hz Hnew.
  unfold call, CreateMessageInitiation.
  run_start s peer. cbn [handshake remoteStatic precomputedStaticStatic localIndex
                         device indexTable].
  intros Hss Hz Hnew.
  do 2 run_step. rewrite Hk.
  do 6 run_step.
  destruct (NoisePrivateKey_sharedSecret X _ _) as [ss [e0|]]; [discriminate|].
  destruct (KDF2 X _ _) as [[ck key] e'].
  do 6 run_step. rewrite Hz.
  destruct (KDF2 X _ _) as [[ck' key'] e''].
  do 5 run_step.
  rewrite run_NewIndexForHandshake; run_norm. rewrite Hnew.
  apply NewIndexForHandshake_inl in Hnew as ->.
  run_exit. split_and!; try done.
  unfold IndexTable_Delete. apply lookup_delete_eq.
Qed.

(** The table and the index after a successful run. *)
Lemma CreateMessageInitiation_success_table
    (env : CreateEnv) (peer : PeerRef) (s s' : Store) (msg : MessageInitiation) :
  call (CreateMessageInitiation X g env peer) s = (Returned (inr msg), s') ->
  let table := IndexTable_Delete (indexTable (device s))
                 (localIndex (handshake (peerAt s peer))) in
  table !! Sender msg = None /\
  indexTable (device s') = <[Sender msg := EntryHandshake peer]> table /\
  localIndex (handshake (peerAt s' peer)) = Sender msg.
Proof.
  intros H. revert H. unfold call, CreateMessageInitiation.
  run_start s peer.
  do 2 run_step.
  destruct (env_newPrivateKey env).2 as [e|]; [discriminate|].
  do 6 run_step.
  destruct (NoisePrivateKey_sharedSecret X _ _) as [ss [e|]]; [discriminate|].
  destruct (KDF2 X _ _) as [[ck key] e'].
  do 6 run_step.
  destruct (isZero _); [discriminate|].
  destruct (KDF2 X _ _) as [[ck' key'] e''].
  do 5 run_step.
  rewrite run_NewIndexForHandshake; run_norm.
  destruct (IndexTable_NewIndexForHandshake _ _ _) as [t [e|index]] eqn:Hnew;
    [discriminate|].
  apply NewIndexForHandshake_inr in Hnew as (Hfree & -> & _).
  do 4 run_step.
  run_exit. intros [= <- <-]. run_exit. cbn [Sender]. by split_and!.
Qed.

(** X6: after a successful run the sender index of the message is a
    32-bit value, it is the localIndex of the peer and the table binds it
    to the handshake of that peer; the previous local index, when it is
    another one, is bound no more; every other index is bound as before. *)
Theorem CreateMessageInitiation_registers_index
    (env : CreateEnv) (peer : PeerRef) (s s' : Store) (msg : MessageInitiation) :
  call (CreateMessageInitiation X g env peer) s = (Returned (inr msg), s') ->
  let old := localIndex (handshake (peerAt s peer)) in
  indexTable (device s') !! localIndex (handshake (peerAt s' peer))
    = Some (EntryHandshake peer) /\
  localIndex (handshake (peerAt s' peer)) = Sender msg /\
  (old <> Sender msg -> indexTable (device s') !! old = None) /\
  forall j, j <> old -> j <> Sender msg ->
            indexTable (device s') !! j = indexTable (device s) !! j.
Proof.
  intros H old.
  apply CreateMessageInitiation_success_table in H as (Hfree & Ht & Hi).
  rewrite Ht, Hi. unfold IndexTable_Delete. split_and!.
  - apply lookup_insert_eq.
  - reflexivity.
  - intros Hne. rewrite lookup_insert_ne by done. apply lookup_delete_eq.
  - intros j Ho Hs. rewrite lookup_insert_ne by done. by rewrite lookup_delete_ne.
Qed.

(** X7: two successful runs for the same peer, one after the other: the
    index of the first message is released by the second run, so that,
    when the second index is another one, the table binds only the second
    to the handshake. *)
Theorem CreateMessageInitiation_twice_releases_index
    (env1 env2 : CreateEnv) (peer : PeerRef) (s s1 s2 : Store)
    (msg1 msg2 : MessageInitiation) :
  call (CreateMessageInitiation X g env1 peer) s = (Returned (inr msg1), s1) ->
  call (CreateMessageInitiation X g env2 peer) s1 = (Returned (inr msg2), s2) ->
  Sender msg2 <> Sender msg1 ->
  indexTable (device s2) !! Sender msg1 = None /\
  indexTable (device s2) !! Sender msg2 = Some (EntryHandshake peer).
Proof.
  intros H1 H2 Hne.
  apply CreateMessageInitiation_success_table in H1 as (_ & _ & Hi1).
  apply CreateMessageInitiation_success_table in H2 as (_ & Ht2 & _).
  rewrite Ht2, Hi1. unfold IndexTable_Delete. split.
  - rewrite lookup_insert_ne by done. apply lookup_delete_eq.
  - apply lookup_insert_eq.
Qed.

Lemma peerAt_set_peer_clear p v s :
  localIndex (handshake (peerAt (set_peer p {| handshake := Clear v |} s) p)) = 0.
Proof.
  unfold peerAt, set_peer; cbn [peers]. by rewrite lookup_insert_eq.
Qed.

(** X8: a successful run, then Clear on the handshake, then another
    successful run: Clear has set localIndex to 0, so the second run
    deletes index 0 and not the index of the first message; when that
    index is not 0 it stays bound to the handshake beside the new one,
    which is never equal to it. *)
Theorem CreateMessageInitiation_after_Clear_keeps_old_index
    (env1 env2 : CreateEnv) (peer : PeerRef) (s s1 s2 : Store)
    (msg1 msg2 : MessageInitiation) :
  call (CreateMessageInitiation X g env1 peer) s = (Returned (inr msg1), s1) ->
  call (CreateMessageInitiation X g env2 peer)
    (call (Handshake_Clear peer) s1).2 = (Returned (inr msg2), s2) ->
  Sender msg1 <> 0 ->
  Sender msg2 <> Sender msg1 /\
  indexTable (device s2) !! Sender msg1 = Some (EntryHandshake peer) /\
  indexTable (device s2) !! Sender msg2 = Some (EntryHandshake peer).
Proof.
  intros H1 H2 Hnz.
  apply CreateMessageInitiation_success_table in H1 as (_ & Ht1 & _).
  apply CreateMessageInitiation_success_table in H2 as (Hfree & Ht2 & _).
  revert Hfree Ht2. unfold call, Handshake_Clear, assignH, update; cbn [snd].
  rewrite peerAt_set_peer_clear. cbn [device set_peer].
  rewrite Ht1. unfold IndexTable_Delete. intros Hfree Ht2.
  assert (Hne : Sender msg2 <> Sender msg1).
  { intros Heq. rewrite Heq, lookup_delete_ne, lookup_insert_eq in Hfree by done.
    discriminate. }
  split_and!; [exact Hne| |].
  - rewrite Ht2, lookup_insert_ne, lookup_delete_ne by done. apply lookup_insert_eq.
  - rewrite Ht2. apply lookup_insert_eq.
Qed.

(** X9: the message of a successful run carries the initiation tag, the
    public key of the ephemeral key that newPrivateKey gave, which is now
    the localEphemeral of the peer, and all-zero MAC1 and MAC2; the
    precomputed secret of the peer is not all-zero. *)
Theorem CreateMessageInitiation_message_header
    (env : CreateEnv) (peer : PeerRef) (s s' : Store) (msg : MessageInitiation) :
  call (CreateMessageInitiation X g env peer) s = (Returned (inr msg), s') ->
  Type_ msg = MessageInitiationType g /\
  (env_newPrivateKey env).2 = None /\
  localEphemeral (handshake (peerAt s' peer)) = (env_newPrivateKey env).1 /\
  Ephemeral msg
    = NoisePrivateKey_publicKey X (localEphemeral (handshake (peerAt s' peer))) /\
  MAC1 msg = zeroArray _ /\ MAC2 msg = zeroArray _ /\
  0 <= Sender msg < 2 ^ 32 /\
  isZero (slice (precomputedStaticStatic (handshake (peerAt s peer)))) = false.
Proof.
  intros H. revert H. unfold call, CreateMessageInitiation.
  run_start s peer.
  do 2 run_step.
  destruct (env_newPrivateKey env).2 as [e|]; [discriminate|].
  do 6 run_step.
  destruct (NoisePrivateKey_sharedSecret X _ _) as [ss [e|]]; [discriminate|].
  destruct (KDF2 X _ _) as [[ck key] e'].
  do 6 run_step.
  destruct (isZero _) eqn:Hz; [discriminate|].
  destruct (KDF2 X _ _) as [[ck' key'] e''].
  do 5 run_step.
  rewrite run_NewIndexForHandshake; run_norm.
  destruct (IndexTable_NewIndexForHandshake _ _ _) as [t [e|index]] eqn:Hnew;
    [discriminate|].
  apply NewIndexForHandshake_inr in Hnew as (_ & _ & Hrange).
  do 4 run_step.
  run_exit. intros [= <- <-]. run_exit.
  cbn [Type_ Sender Ephemeral MAC1 MAC2]. split_and!; try done; apply Hrange.
Qed.

(** X10: the sealed fields of the message of a successful run.  With ss
    the secret shared by the ephemeral key and the static key of the
    remote side, the static public key of the device is sealed under the
    second output of KDF2 on ss, with the hash of the remote static key
    and the ephemeral public key as associated data; the timestamp is
    sealed under the second output of KDF2 on the precomputed secret,
    with that hash extended by the sealed static key as associated data;
    both with the zero nonce.  The chain key of the peer ends as the first
    output of the second KDF2. *)
Theorem CreateMessageInitiation_sealed_fields
    (env : CreateEnv) (peer : PeerRef) (s s' : Store) (msg : MessageInitiation) :
  call (CreateMessageInitiation X g env peer) s = (Returned (inr msg), s') ->
  let h := handshake (peerAt s peer) in
  let eph := slice (Ephemeral msg) in
  let ss := (NoisePrivateKey_sharedSecret X (env_newPrivateKey env).1
               (remoteStatic h)).1 in
  let k1 := KDF2 X (slice (mixKey X (InitialChainKey X) eph)) (slice ss) in
  let k2 := KDF2 X (slice k1.1.1) (slice (precomputedStaticStatic h)) in
  let hash2 := mixHash X (mixHash X (InitialHash X) (slice (remoteStatic h))) eph in
  let hash3 := mixHash X hash2 (slice (Static msg)) in
  Static msg =
    appendInto (zeroArray _)
      (AEAD_Seal X {| aead_key := slice k1.1.2 |} (slice ZeroNonce)
         (slice (publicKey (staticIdentity (device s)))) (slice hash2)) /\
  Timestamp msg =
    appendInto (zeroArray _)
      (AEAD_Seal X {| aead_key := slice k2.1.2 |} (slice ZeroNonce)
         (slice (env_Now env)) (slice hash3)) /\
  chainKey (handshake (peerAt s' peer)) = k2.1.1.
Proof.
  intros H. revert H. unfold call, CreateMessageInitiation.
  run_start s peer.
  do 2 run_step.
  destruct (env_newPrivateKey env).2 as [e|]; [discriminate|].
  do 6 run_step.
  destruct (NoisePrivateKey_sharedSecret X _ _) as [ss [e|]]; [discriminate|].
  destruct (KDF2 X _ (slice ss)) as [[ck key] e'] eqn:Hk1.
  do 6 run_step.
  destruct (isZero _) eqn:Hz; [discriminate|].
  destruct (KDF2 X (slice ck) _) as [[ck' key'] e''] eqn:Hk2.
  do 5 run_step.
  rewrite run_NewIndexForHandshake; run_norm.
  destruct (IndexTable_NewIndexForHandshake _ _ _) as [t [e|index]] eqn:Hnew;
    [discriminate|].
  do 4 run_step.
  run_exit. intros [= <- <-]. run_exit.
  cbn [Ephemeral Static Timestamp emptyInitiation fst snd].
  rewrite Hk1. cbn [fst snd]. rewrite Hk2. cbn [fst snd].
  by split_and!.
Qed.

Lemma peerAt_set_peer p v s : peerAt (set_peer p v s) p = v.
Proof. unfold peerAt, set_peer; cbn [peers]. by rewrite lookup_insert_eq. Qed.

Lemma set_peer_twice p v w s : set_peer p v (set_peer p w s) = set_peer p v s.
Proof. unfold set_peer; cbn [device peers trace]. by rewrite insert_insert_eq. Qed.

(** X11: the outcome of CreateMessageInitiation does not depend on the
    hash, the chain key and the localEphemeral the handshake held before:
    each attempt starts again from the initial values. *)
Theorem CreateMessageInitiation_restarts_transcript
    (env : CreateEnv) (peer : PeerRef) (s : Store) (h : Handshake)
    (a b : array blake2s_Size) (c : NoisePrivateKey) :
  call (CreateMessageInitiation X g env peer)
    (set_peer peer
       {| handshake := set_hash a (set_chainKey b (set_localEphemeral c h)) |} s)
  = call (CreateMessageInitiation X g env peer)
      (set_peer peer {| handshake := h |} s).
Proof.
  unfold call, CreateMessageInitiation.
  match goal with
  | |- context [bind (assignH peer (set_localEphemeral _)) ?k] => generalize k
  end.
  intros k. rewrite !run_assignH, !peerAt_set_peer, !set_peer_twice.
  cbn [handshake]. by destruct h.
Qed.

(** *** The methods mixHash and mixKey of a handshake *)

(** X12: mixHash and mixKey on the handshake of a peer write different
    fields: done in either order they leave the same peers and the same
    device, the hash being the hash of the old hash followed by the data
    and the chain key the KDF1 of the old chain key and the data. *)
Theorem Handshake_mixHash_mixKey_commute
    (p : PeerRef) (d1 d2 : bytes) (s : Store) :
  let s1 := (call (R := unit)
               (Handshake_mixHash X p d1 ;; Handshake_mixKey X p d2)%go s).2 in
  let s2 := (call (R := unit)
               (Handshake_mixKey X p d2 ;; Handshake_mixHash X p d1)%go s).2 in
  let h := handshake (peerAt s p) in
  peers s1 = peers s2 /\ device s1 = device s2 /\ device s1 = device s /\
  hash (handshake (peerAt s1 p)) = blake2s_Sum256 X (slice (hash h) ++ d1) /\
  chainKey (handshake (peerAt s1 p)) = KDF1 X (slice (chainKey h)) d2.
Proof.
  destruct s as [[si tbl] ps tr].
  remember (handshake (peerAt {| device := {| staticIdentity := si;
                                               indexTable := tbl |};
                                  peers := ps; trace := tr |} p)) as h eqn:E.
  unfold call, Handshake_mixHash, Handshake_mixKey, assignH, update, bind.
  cbv beta iota. rewrite <- !E. run_norm. cbn [snd device peers].
  rewrite ?peerAt_insert, ?insert_insert_eq.
  destruct h; cbn. by split_and!.
Qed.

(** *** Further properties of ConsumeMessageInitiation *)

(** X13: a message whose Type is not the initiation tag is answered with
    nil and the store is not touched. *)
Theorem ConsumeMessageInitiation_wrong_type (msg : MessageInitiation) (s : Store) :
  Type_ msg <> MessageInitiationType g ->
  call (ConsumeMessageInitiation X g msg) s = (Returned None, s).
Proof.
  intros Hne. rewrite ConsumeMessageInitiation_run.
  apply Z.eqb_neq in Hne. by rewrite Hne.
Qed.

(** X14: ConsumeMessageInitiation reads of the message the Type, the
    Sender and the Ephemeral only: two messages that agree on these three
    fields get the same result and leave the same store, whatever their
    sealed static key, sealed timestamp and MACs. *)
Theorem ConsumeMessageInitiation_ignores_sealed_fields
    (msg1 msg2 : MessageInitiation) (s : Store) :
  Type_ msg1 = Type_ msg2 ->
  Sender msg1 = Sender msg2 ->
  Ephemeral msg1 = Ephemeral msg2 ->
  call (ConsumeMessageInitiation X g msg1) s
  = call (ConsumeMessageInitiation X g msg2) s.
Proof.
  intros Ht Hs He. rewrite !ConsumeMessageInitiation_run.
  by rewrite Ht, Hs, He.
Qed.

(** X15: for no message and no peer does ConsumeMessageInitiation change
    the state, the lastTimestamp, the remoteIndex, the chain key, the
    localIndex, the localEphemeral, the remoteStatic, the preshared key,
    the precomputed secret or the two times of the handshake, nor the
    static identity of the device: it writes remoteEphemeral and hash and
    nothing else of a handshake. *)
Theorem ConsumeMessageInitiation_frame
    (msg : MessageInitiation) (s : Store) (q : PeerRef) :
  let s' := (call (ConsumeMessageInitiation X g msg) s).2 in
  let h := handshake (peerAt s q) in
  let h' := handshake (peerAt s' q) in
  state h' = state h /\
  lastTimestamp h' = lastTimestamp h /\
  remoteIndex h' = remoteIndex h /\
  chainKey h' = chainKey h /\
  localIndex h' = localIndex h /\
  localEphemeral h' = localEphemeral h /\
  remoteStatic h' = remoteStatic h /\
  presharedKey h' = presharedKey h /\
  precomputedStaticStatic h' = precomputedStaticStatic h /\
  lastInitiationConsumption h' = lastInitiationConsumption h /\
  lastSentHandshake h' = lastSentHandshake h /\
  staticIdentity (device s') = staticIdentity (device s).
Proof.
  rewrite ConsumeMessageInitiation_run.
  destruct (negb _); [by split_and!|].
  destruct (KDF2 X _ _).2; [by split_and!|].
  cbv zeta. cbn [snd].
  destruct (IndexTable_NewPeer X _ _) as [t p]; cbn [fst snd].
  destruct (decide (p = q)) as [->|Hne].
  - rewrite peerAt_insert. by split_and!.
  - unfold peerAt. cbn [peers device staticIdentity].
    rewrite lookup_insert_ne by done. by split_and!.
Qed.


End Runs.

(** ** Concrete runs *)

Import Sample.

Lemma ConsumeMessageInitiation_never_accepts_witness :
  Type_ initiation = MessageInitiationType procA /\
  (call (ConsumeMessageInitiation externals procA initiation) storeR).1
    = Returned None.
Proof.
  split; [vm_compute; reflexivity|].
  apply (ConsumeMessageInitiation_never_accepts externals procA initiation storeR).
  vm_compute; reflexivity.
Defined.

(** C6, as stated, fails: with a KDF2 that reports an error, a message
    that carries the initiation tag is answered with nil before the index
    table and any handshake are touched and before the cipher constructor
    is reached, so it is not so that for every such message the peer
    NewPeer hands back has had its remoteEphemeral and hash written. *)
Lemma ConsumeMessageInitiation_KDF2_error_leaves_store :
  call (ConsumeMessageInitiation Variants.externalsKDF2Fails procA forged) storeR
    = (Returned None, storeR) /\
  ~ (forall (X : Externals) (g : RandDraws) (msg : MessageInitiation) (s : Store),
       Type_ msg = MessageInitiationType g ->
       let r := call (ConsumeMessageInitiation X g msg) s in
       let p := (IndexTable_NewPeer X
                   (IndexTable_Delete (indexTable (device s)) (Sender msg))
                   (Sender msg)).2 in
       r.1 = Returned None /\
       remoteEphemeral (handshake (peerAt r.2 p)) = Ephemeral msg /\
       hash (handshake (peerAt r.2 p))
         = mixHash X (hash (handshake (peerAt s p))) (slice (Ephemeral msg))).
Proof.
  assert (Hrun : call (ConsumeMessageInitiation Variants.externalsKDF2Fails procA
                         forged) storeR = (Returned None, storeR)).
  { rewrite ConsumeMessageInitiation_run.
    replace (negb (Type_ forged =? MessageInitiationType procA)) with false
      by (vm_compute; reflexivity).
    reflexivity. }
  split; [exact Hrun|].
  intros H.
  specialize (H Variants.externalsKDF2Fails procA forged storeR eq_refl).
  cbv zeta in H. rewrite Hrun in H. destruct H as (_ & H & _).
  vm_compute in H. discriminate H.
Qed.

Lemma CreateMessageInitiation_unconfigured_peer_witness :
  isZero (slice (precomputedStaticStatic
                   (handshake (peerAt storeI_unconfigured 1%nat)))) = true /\
  exists err,
    (call (CreateMessageInitiation externals procA envI 1%nat)
       storeI_unconfigured).1 = Returned (inl err).
Proof.
  split; [vm_compute; reflexivity|].
  apply CreateMessageInitiation_unconfigured_peer.
  vm_compute; reflexivity.
Defined.

Lemma CreateMessageInitiation_index_order_witness :
  let s' := (call (CreateMessageInitiation externals procA envI 1%nat) storeI).2 in
  call (CreateMessageInitiation externals procA envI 1%nat) storeI
    = (Returned (inr initiation), s') /\
  Sender initiation = 9 /\
  indexTable (device s') =
    <[9 := EntryHandshake 1%nat]> (IndexTable_Delete (indexTable (device storeI)) 5) /\
  localIndex (handshake (peerAt s' 1%nat)) = 9.
Proof.
  assert (H : call (CreateMessageInitiation externals procA envI 1%nat) storeI
              = (Returned (inr initiation),
                 (call (CreateMessageInitiation externals procA envI 1%nat) storeI).2))
    by (vm_compute; reflexivity).
  pose proof (CreateMessageInitiation_index_order externals procA envI 1%nat
                storeI _ initiation H) as (_ & _ & _ & Htable & Hindex & _).
  cbv zeta. split_and!; [exact H|vm_compute; reflexivity| |].
  - etransitivity; [exact Htable|]. vm_compute; reflexivity.
  - etransitivity; [exact Hindex|]. vm_compute; reflexivity.
Defined.

(** C1: the four tags are what the random generator gave in the process at
    hand: in two processes the initiation tag is 1 and 37, the response
    tag is 2 and 2^62, the other two tags are fractions, and in a third
    process all four tags are 0. *)
Theorem MessageTypes_vary_with_generator :
  rand_valid procA /\ rand_valid procB /\ rand_valid procZero /\
  MessageInitiationType procA = 1 /\ MessageInitiationType procB = 37 /\
  MessageResponseType procA = 2 /\ MessageResponseType procB = 2 ^ 62 /\
  (MessageCookieReplyType procA == 1 # 2)%Q /\
  (MessageTransportType procA == 1 # 4)%Q /\
  MessageInitiationType procZero = 0 /\ MessageResponseType procZero = 0 /\
  (MessageCookieReplyType procZero == 0)%Q /\
  (MessageTransportType procZero == 0)%Q.
Proof.
  unfold rand_valid.
  split_and!;
    try (cbn; intros n Hn; try apply Z.mod_pos_bound; lia);
    try (cbn; lia);
    try reflexivity;
    try (unfold Qle, Qlt; cbn; lia).
Qed.

(** C2: the responder knows the initiator and the initiator the responder,
    both precomputed secrets are non-zero, CreateMessageInitiation
    succeeds, and the responder's ConsumeMessageInitiation returns nil on
    the message; the hashes of the two sides differ afterwards. *)
Theorem created_initiation_is_refused :
  let created := call (CreateMessageInitiation externals procA envI 1%nat) storeI in
  let consumed := call (ConsumeMessageInitiation externals procA initiation) storeR in
  remoteStatic (handshake (peerAt storeI 1%nat))
    = publicKey (staticIdentity (device storeR)) /\
  remoteStatic (handshake (peerAt storeR 9%nat))
    = publicKey (staticIdentity (device storeI)) /\
  isZero (slice (precomputedStaticStatic (handshake (peerAt storeI 1%nat)))) = false /\
  isZero (slice (precomputedStaticStatic (handshake (peerAt storeR 9%nat)))) = false /\
  created.1 = Returned (inr initiation) /\
  consumed.1 = Returned None /\
  hash (handshake (peerAt created.2 1%nat))
    <> hash (handshake (peerAt consumed.2 9%nat)).
Proof.
  cbv zeta. split_and!; try (vm_compute; reflexivity).
  vm_compute. discriminate.
Qed.


(** C4: a message with the right tag and sealed fields of nobody's making
    is refused, and afterwards the entry of its sender index in the table
    and the handshake of the peer are not what they were. *)
Theorem refused_forgery_changes_state :
  let r := call (ConsumeMessageInitiation externals procA forged) storeR in
  r.1 = Returned None /\
  indexTable (device storeR) !! 9 = Some (EntryHandshake 9%nat) /\
  indexTable (device r.2) !! 9 = Some (EntryPeer 9%nat) /\
  remoteEphemeral (handshake (peerAt storeR 9%nat)) = zeroArray _ /\
  remoteEphemeral (handshake (peerAt r.2 9%nat)) = Ephemeral forged /\
  hash (handshake (peerAt r.2 9%nat)) <> hash (handshake (peerAt storeR 9%nat)) /\
  peers r.2 <> peers storeR.
Proof.
  cbv zeta. split_and!; try (vm_compute; reflexivity).
  - vm_compute; discriminate.
  - intros H. apply (f_equal (fun m => remoteEphemeral (handshake (default zeroPeer (m !! 9%nat))))) in H.
    vm_compute in H. discriminate.
Qed.


(** ** Further properties: Clear, the state names, the layout *)

(** X16: what Clear leaves depends on the fields it keeps only: two
    handshakes are cleared to the same value exactly when they agree on
    remoteIndex, remoteStatic, presharedKey, precomputedStaticStatic,
    lastTimestamp, lastInitiationConsumption and lastSentHandshake; nothing
    of the ephemeral keys, chain key, hash, local index or state is left. *)
Theorem Clear_keeps_nothing_of_the_secrets (h1 h2 : Handshake) :
  Clear h1 = Clear h2 <->
  (remoteIndex h1 = remoteIndex h2 /\
   remoteStatic h1 = remoteStatic h2 /\
   presharedKey h1 = presharedKey h2 /\
   precomputedStaticStatic h1 = precomputedStaticStatic h2 /\
   lastTimestamp h1 = lastTimestamp h2 /\
   lastInitiationConsumption h1 = lastInitiationConsumption h2 /\
   lastSentHandshake h1 = lastSentHandshake h2).
Proof.
  split.
  - intros H. split_and!.
    + exact (f_equal remoteIndex H).
    + exact (f_equal remoteStatic H).
    + exact (f_equal presharedKey H).
    + exact (f_equal precomputedStaticStatic H).
    + exact (f_equal lastTimestamp H).
    + exact (f_equal lastInitiationConsumption H).
    + exact (f_equal lastSentHandshake H).
  - destruct h1, h2; cbn. intros (-> & -> & -> & -> & -> & -> & ->).
    unfold Clear; cbn. by rewrite !setZero_zeroArray.
Qed.

(** X17: String gives the five states five different names. *)
Theorem handshakeState_String_distinguishes (a b : handshakeState) :
  String.eqb (handshakeState_String a) (handshakeState_String b) = true <-> a = b.
Proof.
  destruct a, b; vm_compute; split; intros H; try reflexivity; discriminate H.
Qed.

(** X18: the size constants agree with the structs: the fields of an
    initiation take 148 bytes, those of a response 92, those of a cookie
    reply 64 and the header of a transport message 16; the three transport
    offsets are where the receiver, the counter and the content start; and
    no handshake message is larger than MessageHandshakeSize. *)
Theorem message_sizes_match_structs
    (mi : MessageInitiation) (mr : MessageResponse) (mc : MessageCookieReply) :
  list_sum (MessageInitiation_fieldSizes mi) = MessageInitiationSize /\
  list_sum (MessageResponse_fieldSizes mr) = MessageResponseSize /\
  list_sum (MessageCookieReply_fieldSizes mc) = MessageCookieReplySize /\
  list_sum MessageTransport_headerSizes = MessageTransportHeaderSize /\
  fieldOffset MessageTransport_headerSizes 1 = MessageTransportOffsetReceiver /\
  fieldOffset MessageTransport_headerSizes 2 = MessageTransportOffsetCounter /\
  fieldOffset MessageTransport_headerSizes 3 = MessageTransportOffsetContent /\
  (MessageResponseSize <= MessageHandshakeSize)%nat /\
  (MessageCookieReplySize <= MessageHandshakeSize)%nat /\
  (list_sum (MessageInitiation_fieldSizes mi) <= MessageHandshakeSize)%nat.
Proof.
  unfold MessageInitiation_fieldSizes, MessageResponse_fieldSizes,
    MessageCookieReply_fieldSizes, slice.
  rewrite !length_vec_to_list.
  split_and!; try reflexivity; vm_compute; lia.
Qed.

(** ** Concrete runs for the further properties *)

Import MoreSamples.

Lemma CreateMessageInitiation_key_error_witness :
  (env_newPrivateKey envKeyFails).2 = Some (errExternal 1) /\
  (call (CreateMessageInitiation externals procA envKeyFails 1%nat) storeI).1
    = Returned (inl (errExternal 1)).
Proof.
  split; [reflexivity|].
  by rewrite (CreateMessageInitiation_key_error externals procA envKeyFails
                1%nat storeI (errExternal 1) eq_refl).
Defined.

Lemma CreateMessageInitiation_failure_adds_no_index_witness :
  let r := call (CreateMessageInitiation externals procA envNoFreeIndex 1%nat) storeI in
  r = (Returned (inl (errExternal 0)), r.2) /\
  localIndex (handshake (peerAt r.2 1%nat)) = localIndex (handshake (peerAt storeI 1%nat)).
Proof.
  cbv zeta.
  assert (H : call (CreateMessageInitiation externals procA envNoFreeIndex 1%nat) storeI
              = (Returned (inl (errExternal 0)),
                 (call (CreateMessageInitiation externals procA envNoFreeIndex 1%nat)
                    storeI).2))
    by (vm_compute; reflexivity).
  split; [exact H|].
  exact (proj1 (proj2 (CreateMessageInitiation_failure_adds_no_index externals procA
                         envNoFreeIndex 1%nat storeI _ _ H))).
Defined.

Lemma CreateMessageInitiation_allocation_error_witness :
  (env_newPrivateKey envNoFreeIndex).2 = None /\
  isZero (slice (precomputedStaticStatic (handshake (peerAt storeI 1%nat)))) = false /\
  (call (CreateMessageInitiation externals procA envNoFreeIndex 1%nat) storeI).1
    = Returned (inl (errExternal 0)) /\
  indexTable (device (call (CreateMessageInitiation externals procA envNoFreeIndex
                              1%nat) storeI).2) !! 5 = None.
Proof.
  assert (Hk : (env_newPrivateKey envNoFreeIndex).2 = None) by reflexivity.
  assert (Hz : isZero (slice (precomputedStaticStatic
                                (handshake (peerAt storeI 1%nat)))) = false)
    by (vm_compute; reflexivity).
  assert (Hss : (NoisePrivateKey_sharedSecret externals
                   (env_newPrivateKey envNoFreeIndex).1
                   (remoteStatic (handshake (peerAt storeI 1%nat)))).2 = None)
    by reflexivity.
  assert (Hnew : IndexTable_NewIndexForHandshake
                   (IndexTable_Delete (indexTable (device storeI))
                      (localIndex (handshake (peerAt storeI 1%nat)))) 1%nat
                   (env_indexDraws envNoFreeIndex)
                 = ({[ 12 := EntryPeer 3%nat ]}, inl (errExternal 0)))
    by (vm_compute; reflexivity).
  pose proof (CreateMessageInitiation_allocation_error externals procA envNoFreeIndex
                1%nat storeI _ _ Hk Hss Hz Hnew) as (Hr & _ & Hgone & _).
  split_and!; [exact Hk|exact Hz|exact Hr|].
  etransitivity; [|exact Hgone]. vm_compute; reflexivity.
Defined.

Lemma CreateMessageInitiation_registers_index_witness :
  call (CreateMessageInitiation externals procA envI 1%nat) storeI
    = (Returned (inr initiation), storeI1) /\
  indexTable (device storeI1) !! localIndex (handshake (peerAt storeI1 1%nat))
    = Some (EntryHandshake 1%nat) /\
  localIndex (handshake (peerAt storeI1 1%nat)) = Sender initiation.
Proof.
  assert (H : call (CreateMessageInitiation externals procA envI 1%nat) storeI
              = (Returned (inr initiation), storeI1))
    by (vm_compute; reflexivity).
  pose proof (CreateMessageInitiation_registers_index externals procA envI 1%nat
                storeI storeI1 initiation H) as (Hb & Hi & _).
  split_and!; [exact H|exact Hb|exact Hi].
Defined.

Lemma CreateMessageInitiation_twice_releases_index_witness :
  call (CreateMessageInitiation externals procA envI 1%nat) storeI
    = (Returned (inr initiation), storeI1) /\
  call (CreateMessageInitiation externals procA envLater 1%nat) storeI1
    = (Returned (inr initiation2), storeI2) /\
  Sender initiation2 <> Sender initiation /\
  indexTable (device storeI2) !! Sender initiation = None /\
  indexTable (device storeI2) !! Sender initiation2 = Some (EntryHandshake 1%nat).
Proof.
  assert (H1 : call (CreateMessageInitiation externals procA envI 1%nat) storeI
               = (Returned (inr initiation), storeI1))
    by (vm_compute; reflexivity).
  assert (H2 : call (CreateMessageInitiation externals procA envLater 1%nat) storeI1
               = (Returned (inr initiation2), storeI2))
    by (vm_compute; reflexivity).
  assert (Hne : Sender initiation2 <> Sender initiation)
    by (vm_compute; discriminate).
  pose proof (CreateMessageInitiation_twice_releases_index externals procA envI
                envLater 1%nat storeI storeI1 storeI2 initiation initiation2
                H1 H2 Hne) as (Ha & Hb).
  split_and!; [exact H1|exact H2|exact Hne|exact Ha|exact Hb].
Defined.

Lemma CreateMessageInitiation_after_Clear_keeps_old_index_witness :
  call (CreateMessageInitiation externals procA envI 1%nat) storeI
    = (Returned (inr initiation), storeI1) /\
  call (CreateMessageInitiation externals procA envLater 1%nat)
    (call (Handshake_Clear 1%nat) storeI1).2
    = (Returned (inr initiation2_cleared), storeI2_cleared) /\
  Sender initiation <> 0 /\
  indexTable (device storeI2_cleared) !! Sender initiation
    = Some (EntryHandshake 1%nat) /\
  indexTable (device storeI2_cleared) !! Sender initiation2_cleared
    = Some (EntryHandshake 1%nat).
Proof.
  assert (H1 : call (CreateMessageInitiation externals procA envI 1%nat) storeI
               = (Returned (inr initiation), storeI1))
    by (vm_compute; reflexivity).
  assert (H2 : call (CreateMessageInitiation externals procA envLater 1%nat)
                 (call (Handshake_Clear 1%nat) storeI1).2
               = (Returned (inr initiation2_cleared), storeI2_cleared))
    by (vm_compute; reflexivity).
  assert (Hnz : Sender initiation <> 0) by (vm_compute; discriminate).
  pose proof (CreateMessageInitiation_after_Clear_keeps_old_index externals procA
                envI envLater 1%nat storeI storeI1 storeI2_cleared initiation
                initiation2_cleared H1 H2 Hnz) as (_ & Ha & Hb).
  split_and!; [exact H1|exact H2|exact Hnz|exact Ha|exact Hb].
Defined.

Lemma CreateMessageInitiation_message_header_witness :
  call (CreateMessageInitiation externals procA envI 1%nat) storeI
    = (Returned (inr initiation), storeI1) /\
  Type_ initiation = MessageInitiationType procA /\
  MAC1 initiation = zeroArray _ /\ MAC2 initiation = zeroArray _.
Proof.
  assert (H : call (CreateMessageInitiation externals procA envI 1%nat) storeI
              = (Returned (inr initiation), storeI1))
    by (vm_compute; reflexivity).
  pose proof (CreateMessageInitiation_message_header externals procA envI 1%nat
                storeI storeI1 initiation H) as (Ht & _ & _ & _ & Hm1 & Hm2 & _).
  split_and!; [exact H|exact Ht|exact Hm1|exact Hm2].
Defined.

Lemma CreateMessageInitiation_sealed_fields_witness :
  call (CreateMessageInitiation externals procA envI 1%nat) storeI
    = (Returned (inr initiation), storeI1) /\
  take 32 (slice (Static initiation))
    = slice (publicKey (staticIdentity (device storeI))) /\
  take 12 (slice (Timestamp initiation)) = slice (env_Now envI).
Proof.
  assert (H : call (CreateMessageInitiation externals procA envI 1%nat) storeI
              = (Returned (inr initiation), storeI1))
    by (vm_compute; reflexivity).
  pose proof (CreateMessageInitiation_sealed_fields externals procA envI 1%nat
                storeI storeI1 initiation H) as (Hs & Hts & _).
  split_and!; [exact H| |].
  - rewrite Hs. vm_compute; reflexivity.
  - rewrite Hts. vm_compute; reflexivity.
Defined.

Lemma ConsumeMessageInitiation_wrong_type_witness :
  Type_ wrongType <> MessageInitiationType procA /\
  call (ConsumeMessageInitiation externals procA wrongType) storeR
    = (Returned None, storeR).
Proof.
  assert (Hne : Type_ wrongType <> MessageInitiationType procA)
    by (vm_compute; discriminate).
  split; [exact Hne|].
  exact (ConsumeMessageInitiation_wrong_type externals procA wrongType storeR Hne).
Defined.

Lemma ConsumeMessageInitiation_ignores_sealed_fields_witness :
  Static resealed <> Static initiation /\
  Timestamp resealed <> Timestamp initiation /\
  call (ConsumeMessageInitiation externals procA initiation) storeR
  = call (ConsumeMessageInitiation externals procA resealed) storeR.
Proof.
  split_and!; [vm_compute; discriminate..|].
  exact (ConsumeMessageInitiation_ignores_sealed_fields externals procA initiation
           resealed storeR eq_refl eq_refl eq_refl).
Defined.
